(** * examples/python-app/app.py: a Flask service with health, readiness,
      metrics and a signal-driven shutdown flag

    The development embeds the module shallowly.  The module globals
    ([CONFIG], [start_time], [is_shutting_down]) live in a [World] record
    that every view threads through a small state-and-exception monad; the
    operating system (wall clock, [psutil] readings) is an oracle indexed by
    the number of queries made so far; log lines and [time.sleep] are
    recorded as a trace of effects.  Flask's request cycle around the views,
    the development server of [app.run] and the delivery of signals are
    modelled as far as the program's behaviour depends on them. *)

From Stdlib Require Import ZArith QArith Qround String Ascii List Lia DecimalString.
From Stdlib Require Import DecimalPos.
From stdpp Require Import base option gmap strings list.

Local Open Scope Z_scope.
Local Open Scope string_scope.

(** ** Python text primitives (ASCII text) *)

Module Py.

Definition newline : ascii := "010"%char.
Definition dquote : ascii := "034"%char.

Definition is_upper (c : ascii) : bool :=
  (65 <=? nat_of_ascii c)%nat && (nat_of_ascii c <=? 90)%nat.

(** [str.lower] on one ASCII character. *)
Definition lower_char (c : ascii) : ascii :=
  if is_upper c then ascii_of_nat (nat_of_ascii c + 32) else c.

Fixpoint lower (s : string) : string :=
  match s with
  | EmptyString => EmptyString
  | String c s' => String (lower_char c) (lower s')
  end.

(** The characters [int] skips around a literal, those of C's isspace: tab,
    line feed, vertical tab, form feed, carriage return and space. *)
Definition isspace (c : ascii) : bool :=
  let n := nat_of_ascii c in
  ((9 <=? n)%nat && (n <=? 13)%nat) || (n =? 32)%nat.

Fixpoint lstrip (s : string) : string :=
  match s with
  | EmptyString => EmptyString
  | String c s' => if isspace c then lstrip s' else s
  end.

Definition strip (s : string) : string :=
  String.rev (lstrip (String.rev (lstrip s))).

Definition digit_of (c : ascii) : option Z :=
  let n := nat_of_ascii c in
  if (48 <=? n)%nat && (n <=? 57)%nat then Some (Z.of_nat (n - 48)) else None.

(** Digits of a base-10 literal; a single underscore may separate two
    digits.  [after_digit] records that the previous character was a digit. *)
Fixpoint int_digits (s : string) (acc : Z) (after_digit : bool) : option Z :=
  match s with
  | EmptyString => if after_digit then Some acc else None
  | String c s' =>
      match digit_of c with
      | Some d => int_digits s' (10 * acc + d) true
      | None =>
          if Ascii.eqb c "_" && after_digit then int_digits s' acc false
          else None
      end
  end.

(** The value of a base-10 literal in ASCII text: blanks around it, a sign,
    digits; [None] when the text is no such literal. *)
Definition int_literal (s : string) : option Z :=
  match strip s with
  | String "-" s' => Z.opp <$> int_digits s' 0 false
  | String "+" s' => int_digits s' 0 false
  | s' => int_digits s' 0 false
  end.

(** The number of digits in a text, which [int] holds against the
    interpreter's limit. *)
Fixpoint count_digits (s : string) : nat :=
  match s with
  | EmptyString => 0
  | String c s' =>
      match digit_of c with
      | Some _ => S (count_digits s')
      | None => count_digits s'
      end
  end.

(** Every character of the text is below 128. *)
Fixpoint is_ascii (s : string) : bool :=
  match s with
  | EmptyString => true
  | String c s' => (nat_of_ascii c <? 128)%nat && is_ascii s'
  end.

(** [str(n)] for an [int]. *)
Definition str_of_int (n : Z) : string :=
  NilZero.string_of_int (Z.to_int n).

(** [timedelta.total_seconds()]: the difference, kept in microseconds, over
    10^6.  Python rounds this quotient to the nearest double; rounding is
    monotone and fixes 0, so sign and order are those of the rational. *)
Definition total_seconds (microseconds : Z) : Q := microseconds # 1000000.

Fixpoint contains_char (c : ascii) (s : string) : bool :=
  match s with
  | EmptyString => false
  | String c' s' => Ascii.eqb c c' || contains_char c s'
  end.

(** The lines of a text: it is cut after every line feed, and a last line
    without one is kept when it is not empty. *)
Fixpoint lines (s : string) : list string :=
  match s with
  | EmptyString => []
  | String c s' =>
      if Ascii.eqb c newline then EmptyString :: lines s'
      else
        match lines s' with
        | [] => [String c EmptyString]
        | l :: ls => String c l :: ls
        end
  end.

(** A sample line of the text exposition format: neither blank nor a
    comment. *)
Definition is_sample (l : string) : bool :=
  match l with
  | EmptyString => false
  | String c _ => negb (Ascii.eqb c "#")
  end.

Definition samples (text : string) : list string := List.filter is_sample (lines text).

(** The text made of the given lines, each closed by a line feed. *)
Fixpoint unlines (ls : list string) : string :=
  match ls with
  | [] => EmptyString
  | l :: ls' => l ++ String newline (unlines ls')
  end.

Definition quoted (s : string) : string := String dquote (s ++ String dquote EmptyString).

(** What ends a computation early: the exceptions the program meets, and
    [Killed] for the death of the process by a signal, which no handler
    sees. *)
Inductive exn :=
  | SystemExit (code : Z)
  | KeyboardInterrupt
  | ValueError (msg : string)
  | OSError (msg : string)
  | RuntimeError (msg : string)
  | HTTPException (code : Z) (name description : string)
  | Killed (signum : Z).

(** [isinstance(e, Exception)]: [SystemExit] and [KeyboardInterrupt] derive
    from [BaseException] only. *)
Definition is_Exception (e : exn) : bool :=
  match e with
  | SystemExit _ | KeyboardInterrupt | Killed _ => false
  | _ => true
  end.

(** [str(e)], as interpolated in a log message. *)
Definition str_of_exn (e : exn) : string :=
  match e with
  | SystemExit code => str_of_int code
  | KeyboardInterrupt => EmptyString
  | ValueError msg | OSError msg | RuntimeError msg => msg
  | HTTPException code name description =>
      str_of_int code ++ " " ++ name ++ ": " ++ description
  | Killed _ => EmptyString
  end.

Inductive result (A : Type) :=
  | Return (a : A)
  | Raise (e : exn).
Arguments Return {A} a.
Arguments Raise {A} e.

End Py.

Import Py.

(** ** Configuration *)

Record Config := {
  port : Z;
  host : string;
  env : string;
  debug : bool;
}.

(** [os.getenv(key, default)] with a string default. *)
Definition getenv (environ : gmap string string) (key dflt : string) : string :=
  default dflt (environ !! key).

(** ** Effects and process state *)

Inductive level := INFO | WARNING | ERROR.

Inductive effect :=
  | Log (lvl : level) (msg : string)    (* a record handed to the handler of lines 24-28 *)
  | Sleep (seconds : Z).                (* time.sleep *)

(** The module globals of app.py (lines 16, 36, 37) together with the process
    environment, the number of operating-system queries made so far and the
    effects performed so far, oldest first. *)
Record World := {
  CONFIG : Config;
  start_time : Z;
  is_shutting_down : bool;
  environ : gmap string string;
  queries : nat;
  trace : list effect;
}.

Definition set_is_shutting_down (b : bool) (w : World) : World :=
  {| CONFIG := CONFIG w; start_time := start_time w; is_shutting_down := b;
     environ := environ w; queries := queries w; trace := trace w |}.

Definition tick (w : World) : World :=
  {| CONFIG := CONFIG w; start_time := start_time w;
     is_shutting_down := is_shutting_down w;
     environ := environ w; queries := S (queries w); trace := trace w |}.

Definition emit (e : effect) (w : World) : World :=
  {| CONFIG := CONFIG w; start_time := start_time w;
     is_shutting_down := is_shutting_down w;
     environ := environ w; queries := queries w; trace := trace w ++ [e] |}.

(** State and exceptions. *)
Definition M (A : Type) : Type := World -> result A * World.

#[global] Instance M_ret : MRet M := fun A a w => (Return a, w).

#[global] Instance M_bind : MBind M := fun A B k m w =>
  match m w with
  | (Return a, w') => k a w'
  | (Raise e, w') => (Raise e, w')
  end.

Definition raise {A} (e : exn) : M A := fun w => (Raise e, w).

(** [try: m  except BaseException as e: h e]; handlers that do not apply
    re-raise. *)
Definition try_except {A} (m : M A) (h : exn -> M A) : M A := fun w =>
  match m w with
  | (Return a, w') => (Return a, w')
  | (Raise e, w') => h e w'
  end.

Definition gets {A} (f : World -> A) : M A := fun w => (Return (f w), w).

Definition modify (f : World -> World) : M unit := fun w => (Return tt, f w).

Definition logger_info (msg : string) : M unit := modify (emit (Log INFO msg)).
Definition logger_error (msg : string) : M unit := modify (emit (Log ERROR msg)).
Definition time_sleep (seconds : Z) : M unit := modify (emit (Sleep seconds)).
Definition sys_exit {A} (code : Z) : M A := raise (SystemExit code).

(** One query of the operating system. *)
Definition query {A} (oracle : nat -> A) : M A :=
  fun w => (Return (oracle (queries w)), tick w).

(** ** JSON values and responses *)

#[warnings="-register-all"]
Inductive json :=
  | JNull
  | JBool (b : bool)
  | JInt (n : Z)
  | JFloat (x : Q)
  | JStr (s : string)
  | JObj (fields : list (string * json)).

Fixpoint assoc {A} (k : string) (l : list (string * A)) : option A :=
  match l with
  | [] => None
  | (k', v) :: l' => if String.eqb k k' then Some v else assoc k l'
  end.

(** Member [k] of a JSON object. *)
Definition json_get (k : string) (j : json) : option json :=
  match j with
  | JObj fields => assoc k fields
  | _ => None
  end.

Inductive body :=
  | Json (j : json)
  | Text (s : string)
  | ErrorPage (code : Z)      (* the framework's page for an HTTP error *)
  | Empty.

(** werkzeug's [Headers]: an ordered list of pairs whose keys compare without
    regard to case. *)
Module Headers.

Definition t := list (string * string).

Definition same_key (a b : string) : bool := String.eqb (lower a) (lower b).

Fixpoint get (k : string) (hs : t) : option string :=
  match hs with
  | [] => None
  | (k', v) :: hs' => if same_key k k' then Some v else get k hs'
  end.

Fixpoint remove (k : string) (hs : t) : t :=
  match hs with
  | [] => []
  | (k', v) :: hs' => if same_key k k' then remove k hs' else (k', v) :: remove k hs'
  end.

(** [hs[k] = v]: the first entry for [k] is replaced where it stands and the
    others are dropped; without one the pair goes to the end. *)
Fixpoint set (k v : string) (hs : t) : t :=
  match hs with
  | [] => [(k, v)]
  | (k', v') :: hs' =>
      if same_key k k' then (k, v) :: remove k hs' else (k', v') :: set k v hs'
  end.

(** [hs.update(d)] for a dict given as its items in order. *)
Definition update (d : list (string * string)) (hs : t) : t :=
  fold_left (fun acc kv => set (fst kv) (snd kv) acc) d hs.

(** The values carried for [k], in order. *)
Fixpoint getlist (k : string) (hs : t) : list string :=
  match hs with
  | [] => []
  | (k', v) :: hs' => if same_key k k' then v :: getlist k hs' else getlist k hs'
  end.

End Headers.

Record Response := {
  status : Z;
  headers : Headers.t;
  data : body;
}.

Definition with_status (code : Z) (r : Response) : Response :=
  {| status := code; headers := headers r; data := data r |}.

Definition with_headers (hs : Headers.t) (r : Response) : Response :=
  {| status := status r; headers := hs; data := data r |}.

Definition set_header (k v : string) (r : Response) : Response :=
  with_headers (Headers.set k v (headers r)) r.

Definition jsonify (j : json) : Response :=
  {| status := 200; headers := [("Content-Type", "application/json")]; data := Json j |}.

(** What a view may return: a response, a response with a status, or a text
    with a status and a dict of headers. *)
Inductive view_rv :=
  | Rv (r : Response)
  | RvStatus (r : Response) (code : Z)
  | RvText (text : string) (code : Z) (hs : list (string * string)).

Definition make_response (rv : view_rv) : Response :=
  match rv with
  | Rv r => r
  | RvStatus r code => with_status code r
  | RvText text code hs =>
      {| status := code;
         headers := Headers.update hs [("Content-Type", "text/html; charset=utf-8")];
         data := Text text |}
  end.

Inductive http_method := GET | HEAD | OPTIONS | OtherMethod (name : string).

Definition method_name (m : http_method) : string :=
  match m with
  | GET => "GET"
  | HEAD => "HEAD"
  | OPTIONS => "OPTIONS"
  | OtherMethod name => name
  end.

(** The request as the application sees it: [remote_addr] is the address
    after the proxy middleware has applied one hop of X-Forwarded-For. *)
Record Request := {
  method : http_method;
  path : string;
  remote_addr : string;
}.

(** ** The platform: Python runtime constants, the libraries and the
    operating system as oracles

    Every query of the operating system ([datetime.now()], a [psutil]
    call, [os.getcwd()]) is answered by an oracle indexed by the number of
    queries the process has made before it.  [wall_clock] is the naive local
    time in microseconds; nothing constrains successive readings.  The
    [psutil] readings carry what the kernel reports for the calling process
    while it serves a request: byte counts are naturals, and the process
    holds at least one descriptor (the connection) and one thread.

    What app.py leaves to Flask, werkzeug and the kernel is an oracle too:
    the answer of the static rule that [Flask(__name__)] (line 32) registers
    for the paths under /static/, the records werkzeug writes to the same
    log, the page the server sends when an exception escapes the
    application, [int] on text outside ASCII and its limit on digits, and
    what a signal does for which the program installed no handler. *)

Inductive signal_action := Dies | NoEffect.

Class Platform := {
  isoformat : Z -> string;              (* datetime.isoformat() *)
  float_repr : Q -> string;             (* repr of a float in an f-string *)
  sys_version : string;
  sys_executable : string;
  sys_platform : string;
  os_getpid : Z;
  allow_header : string;                (* GET, HEAD, OPTIONS in the runtime's set order *)
  wall_clock : nat -> Z;                (* datetime.now() *)
  os_getcwd : nat -> string;
  memory_info : nat -> N * N;           (* (rss, vms) *)
  cpu_percent : nat -> Q;
  num_fds : nat -> positive;
  num_threads : nat -> positive;
  cpu_count : nat -> option Z;          (* None when undetermined *)
  virtual_memory : nat -> N * N;        (* (total, available) *)
  int_max_str_digits : nat;             (* sys.get_int_max_str_digits(); 0: no limit *)
  int_of_text : string -> option Z;     (* int() on a text with characters outside ASCII *)
  int_error : string -> string;         (* the message of int()'s ValueError for a text *)
  default_action : Z -> signal_action;  (* a signal without a handler *)
  static_rule : http_method -> string -> nat -> option Response;
                                        (* None: NotFound is raised *)
  access_line : Request -> Response -> nat -> string;
                                        (* werkzeug's record of an answered request *)
  server_banner : list (level * string);
                                        (* werkzeug's records when the server starts *)
  debugger_page : Response;             (* sent for an exception that escapes in debug mode *)
  server_error_line : exn -> string;    (* werkzeug's record of one that escapes otherwise *)
}.

(** ** The application (app.py, lines 40-191) *)

Section App.
Context `{Platform}.

(** [int] compares the number of digits with the limit only above 640. *)
Definition digits_allowed (digits : nat) : bool :=
  (digits <=? 640)%nat || (int_max_str_digits =? 0)%nat
  || (digits <=? int_max_str_digits)%nat.

(** [int(s)] for a [str] argument: [None] stands for [ValueError]. *)
Definition int_of_str (s : string) : option Z :=
  if is_ascii s then
    if digits_allowed (count_digits s) then int_literal s else None
  else int_of_text s.

(** The dictionary literal of lines 16-21 evaluates its items in order; only
    [int] can raise, and nothing before it has an effect. *)
Definition load_config (environ : gmap string string) : result Config :=
  match
    match environ !! "PORT" with
    | Some s => int_of_str s
    | None => Some 8080
    end
  with
  | None => Raise (ValueError (int_error (getenv environ "PORT" EmptyString)))
  | Some p =>
      Return {| port := p;
                host := getenv environ "HOST" "0.0.0.0";
                env := getenv environ "FLASK_ENV" "production";
                debug := String.eqb (lower (getenv environ "DEBUG" "false")) "true" |}
  end.

(** [datetime.now()] *)
Definition now : M Z := query wall_clock.

(** [@app.after_request] (lines 41-48) *)
Definition add_security_headers (response : Response) : Response :=
  set_header "Strict-Transport-Security" "max-age=31536000; includeSubDomains"
    (set_header "X-XSS-Protection" "1; mode=block"
      (set_header "X-Frame-Options" "DENY"
        (set_header "X-Content-Type-Options" "nosniff" response))).

(** [@app.before_request] (lines 52-55) *)
Definition log_request (request : Request) : M unit :=
  logger_info ("Request: " ++ method_name (method request) ++ " " ++ path request
               ++ " from " ++ remote_addr request).

(** [@app.route('/')] (lines 59-71) *)
Definition index : M view_rv :=
  shutting_down ← gets is_shutting_down;
  if (shutting_down : bool) then
    mret (RvStatus (jsonify (JObj [("error", JStr "Service shutting down")])) 503)
  else
    environment ← gets (fun w => env (CONFIG w));
    timestamp ← now;
    mret (Rv (jsonify (JObj [
      ("message", JStr "Hello from Python Docker base image!");
      ("version", JStr "1.0.0");
      ("environment", JStr environment);
      ("timestamp", JStr (isoformat timestamp));
      ("python_version", JStr sys_version)]))).

(** [@app.route('/health')] (lines 74-83) *)
Definition health : M view_rv :=
  t ← now;
  started ← gets start_time;
  let uptime := total_seconds (t - started) in
  timestamp ← now;
  mret (Rv (jsonify (JObj [
    ("status", JStr "healthy");
    ("uptime", JFloat uptime);
    ("timestamp", JStr (isoformat timestamp))]))).

(** [@app.route('/ready')] (lines 86-95) *)
Definition ready : M view_rv :=
  shutting_down ← gets is_shutting_down;
  let ready := negb shutting_down in
  let status_code := if ready then 200 else 503 in
  timestamp ← now;
  mret (RvStatus (jsonify (JObj [
    ("ready", JBool ready);
    ("timestamp", JStr (isoformat timestamp))])) status_code).

(** The f-string of lines 106-126, line by line. *)
Definition metrics_text (uptime cpu : Q) (rss vms fds threads : Z) : string :=
  unlines [
    "# HELP process_uptime_seconds Process uptime in seconds";
    "# TYPE process_uptime_seconds gauge";
    "process_uptime_seconds " ++ float_repr uptime;
    "";
    "# HELP process_cpu_percent Process CPU usage percentage";
    "# TYPE process_cpu_percent gauge";
    "process_cpu_percent " ++ float_repr cpu;
    "";
    "# HELP process_memory_bytes Process memory usage in bytes";
    "# TYPE process_memory_bytes gauge";
    "process_memory_bytes{type=" ++ quoted "rss" ++ "} " ++ str_of_int rss;
    "process_memory_bytes{type=" ++ quoted "vms" ++ "} " ++ str_of_int vms;
    "";
    "# HELP process_open_fds Number of open file descriptors";
    "# TYPE process_open_fds gauge";
    "process_open_fds " ++ str_of_int fds;
    "";
    "# HELP process_threads Number of threads";
    "# TYPE process_threads gauge";
    "process_threads " ++ str_of_int threads].

(** [@app.route('/metrics')] (lines 98-128) *)
Definition metrics : M view_rv :=
  t ← now;
  started ← gets start_time;
  let uptime := total_seconds (t - started) in
  mem ← query memory_info;
  cpu ← query cpu_percent;                 (* blocks for the 0.1 s sample *)
  fds ← query num_fds;
  threads ← query num_threads;
  mret (RvText
    (metrics_text uptime cpu (Z.of_N (fst mem)) (Z.of_N (snd mem)) (Z.pos fds) (Z.pos threads))
    200 [("Content-Type", "text/plain; charset=utf-8")]).

(** [@app.route('/info')] (lines 131-150) *)
Definition info : M view_rv :=
  user ← gets (fun w => getenv (environ w) "USER" "unknown");
  cwd ← query os_getcwd;
  cpus ← query cpu_count;
  vm_total ← query virtual_memory;
  vm_available ← query virtual_memory;
  mret (Rv (jsonify (JObj [
    ("python", JObj [
      ("version", JStr sys_version);
      ("executable", JStr sys_executable);
      ("platform", JStr sys_platform)]);
    ("process", JObj [
      ("pid", JInt os_getpid);
      ("user", JStr user);
      ("cwd", JStr cwd)]);
    ("system", JObj [
      ("cpu_count", from_option JInt JNull cpus);
      ("memory_total", JInt (Z.of_N (fst vm_total)));
      ("memory_available", JInt (Z.of_N (snd vm_available)))])]))).

(** [@app.errorhandler(404)] (lines 154-160); [request] is Flask's
    request-local object. *)
Definition not_found (request : Request) (error : exn) : M view_rv :=
  mret (RvStatus (jsonify (JObj [
    ("error", JStr "Not Found");
    ("path", JStr (path request))])) 404).

(** [@app.errorhandler(500)] (lines 163-169) *)
Definition internal_error (error : exn) : M view_rv :=
  logger_error ("Internal server error: " ++ str_of_exn error);;
  mret (RvStatus (jsonify (JObj [("error", JStr "Internal Server Error")])) 500).

(** [graceful_shutdown(signum, frame)] (lines 173-186); the frame is not
    used. *)
Definition graceful_shutdown (signum : Z) : M unit :=
  logger_info ("Received signal " ++ str_of_int signum ++ ", starting graceful shutdown...");;
  modify (set_is_shutting_down true);;
  logger_info "Waiting for in-flight requests to complete...";;
  time_sleep 2;;
  logger_info "Shutdown complete";;
  sys_exit 0.

Definition SIGINT : Z := 2.
Definition SIGTERM : Z := 15.

(** The handlers installed by [signal.signal] (lines 190-191). *)
Definition signal_handlers : list (Z * (Z -> M unit)) :=
  [(SIGTERM, graceful_shutdown); (SIGINT, graceful_shutdown)].

Definition signal_handler (signum : Z) : option (Z -> M unit) :=
  snd <$> List.find (fun entry => Z.eqb (fst entry) signum) signal_handlers.

(** A signal runs the handler installed for it; without one the kernel's
    default applies: the process dies, or the program notices nothing. *)
Definition deliver_signal (signum : Z) : M unit :=
  match signal_handler signum with
  | Some handler => handler signum
  | None =>
      match default_action signum with
      | Dies => raise (Killed signum)
      | NoEffect => mret tt
      end
  end.

(** *** Flask's request cycle around the views *)

Definition NotFound : exn :=
  HTTPException 404 "Not Found"
    "The requested URL was not found on the server. If you entered the URL manually please check your spelling and try again.".

Definition MethodNotAllowed : exn :=
  HTTPException 405 "Method Not Allowed"
    "The method is not allowed for the requested URL.".

Definition InternalServerError : exn :=
  HTTPException 500 "Internal Server Error"
    "The server encountered an internal error and was unable to complete your request. Either the server is overloaded or there is an error in the application.".

(** The rules registered by [@app.route]; each accepts GET, and with it HEAD
    and OPTIONS.  The static rule of [Flask(__name__)] is met in
    [dispatch_request]. *)
Definition url_map : list (string * M view_rv) :=
  [("/", index); ("/health", health); ("/ready", ready);
   ("/metrics", metrics); ("/info", info)].

Definition default_options_response : Response :=
  {| status := 200;
     headers := [("Content-Type", "text/html; charset=utf-8"); ("Allow", allow_header)];
     data := Empty |}.

(** An HTTP error without a registered handler is its own response. *)
Definition http_error_response (code : Z) : Response :=
  {| status := code;
     headers :=
       ("Content-Type", "text/html; charset=utf-8")
         :: (if (code =? 405)%Z then [("Allow", allow_header)] else []);
     data := ErrorPage code |}.

(** The paths that the static rule /static/<path:filename>, or its redirect
    for doubled slashes, may claim. *)
Definition under_static (p : string) : bool := String.prefix "/static/" p.

Definition dispatch_request (request : Request) : M view_rv :=
  match assoc (path request) url_map with
  | None =>
      if under_static (path request) then
        answer ← query (static_rule (method request) (path request));
        match answer with
        | Some response => mret (Rv response)
        | None => raise NotFound
        end
      else raise NotFound
  | Some view =>
      match method request with
      | GET | HEAD => view
      | OPTIONS => mret (Rv default_options_response)
      | OtherMethod _ => raise MethodNotAllowed
      end
  end.

Definition handle_user_exception (request : Request) (e : exn) : M view_rv :=
  match e with
  | HTTPException code _ _ =>
      if (code =? 404)%Z then not_found request e
      else mret (Rv (http_error_response code))
  | _ => raise e
  end.

(** before_request hooks, the view or the handler of its HTTP error, then
    the after_request hooks. *)
Definition full_dispatch_request (request : Request) : M Response :=
  log_request request;;
  rv ← try_except (dispatch_request request) (handle_user_exception request);
  mret (add_security_headers (make_response rv)).

(** An exception that is not an HTTP error is raised again when exceptions
    propagate, which they do in debug mode; [app.run] receives
    [debug=CONFIG['debug']] (line 203).  Otherwise Flask logs it (the record
    also carries the traceback) and the 500 handler answers, through the
    after_request hooks. *)
Definition handle_exception (request : Request) (e : exn) : M Response :=
  propagate ← gets (fun w => debug (CONFIG w));
  if (propagate : bool) then raise e
  else
    logger_error ("Exception on " ++ path request ++ " ["
                  ++ method_name (method request) ++ "]");;
    rv ← internal_error InternalServerError;
    mret (add_security_headers (make_response rv)).

(** The response object the application hands to the WSGI server. *)
Definition wsgi_app (request : Request) : M Response :=
  try_except (full_dispatch_request request)
    (fun e => if is_Exception e then handle_exception request e else raise e).

(** *** The process: start-up, serving, exit *)

Inductive event :=
  | Incoming (request : Request)
  | Signal (signum : Z).

(** What the development server sends when an exception escapes the
    application: in debug mode, where [app.run] wraps the application in
    werkzeug's debugger, the debugger's page; else the server logs the
    exception and sends its own page for the error 500. *)
Definition server_on_escape (e : exn) : M Response :=
  if is_Exception e then
    debugging ← gets (fun w => debug (CONFIG w));
    if (debugging : bool) then mret debugger_page
    else logger_error (server_error_line e);; mret (http_error_response 500)
  else raise e.

(** One request under [app.run]: the application answers, then werkzeug
    writes its access record, which the handler of lines 24-28 receives like
    the program's own records. *)
Definition serve_request (request : Request) : M Response :=
  response ← try_except (wsgi_app request) server_on_escape;
  line ← query (access_line request response);
  logger_info line;;
  mret response.

(** One event, when nothing else arrives before it is dealt with. *)
Definition handle_event (ev : event) : M unit :=
  match ev with
  | Incoming request => serve_request request;; mret tt
  | Signal signum => deliver_signal signum
  end.

(** [graceful_shutdown] with what arrives while it sleeps: the statements of
    lines 177-186, [during] standing between the call of [time.sleep] and
    its return. *)
Definition graceful_shutdown_interrupted (during : M unit) (signum : Z) : M unit :=
  logger_info ("Received signal " ++ str_of_int signum ++ ", starting graceful shutdown...");;
  modify (set_is_shutting_down true);;
  logger_info "Waiting for in-flight requests to complete...";;
  time_sleep 2;;
  during;;
  logger_info "Shutdown complete";;
  sys_exit 0.

(** The server loop over the events the process sees, in order.  A signal
    with a handler, which is [graceful_shutdown] for both SIGTERM and
    SIGINT, runs it in the main thread; the events after it arrive while the
    handler sleeps: the thread of a request in flight still answers, and a
    further SIGTERM or SIGINT runs the handler again, inside the sleep,
    whose [sys.exit] ends the process before the first handler resumes.  A
    signal without a handler ends the process or goes unnoticed. *)
Fixpoint serve_forever (events : list event) : M unit :=
  match events with
  | [] => mret tt
  | Incoming request :: events' => serve_request request;; serve_forever events'
  | Signal signum :: events' =>
      match signal_handler signum with
      | Some _ => graceful_shutdown_interrupted (serve_forever events') signum
      | None =>
          match default_action signum with
          | Dies => raise (Killed signum)
          | NoEffect => serve_forever events'
          end
      end
  end.

(** What [app.run] meets: it raises before the server runs, or the server
    runs and sees the given events. *)
Inductive server_run :=
  | StartupFails (e : exn)
  | Serves (events : list event).

Fixpoint log_records (records : list (level * string)) : M unit :=
  match records with
  | [] => mret tt
  | (lvl, msg) :: records' => modify (emit (Log lvl msg));; log_records records'
  end.

Definition app_run (run : server_run) : M unit :=
  match run with
  | StartupFails e => raise e
  | Serves events => log_records server_banner;; serve_forever events
  end.

(** The [__main__] block (lines 194-208). *)
Definition main (run : server_run) : M unit :=
  cfg ← gets CONFIG;
  logger_info ("Starting application on " ++ host cfg ++ ":" ++ str_of_int (port cfg));;
  logger_info ("Environment: " ++ env cfg);;
  logger_info ("Debug mode: " ++ (if debug cfg then "True" else "False"));;
  try_except (app_run run)
    (fun e =>
       if is_Exception e then
         logger_error ("Failed to start application: " ++ str_of_exn e);;
         sys_exit 1
       else raise e).

(** Module initialisation (lines 16-37): the configuration is read, then the
    clock; the flag starts cleared. *)
Definition import_module (environment : gmap string string) : result World :=
  match load_config environment with
  | Raise e => Raise e
  | Return cfg =>
      Return {| CONFIG := cfg; start_time := wall_clock 0;
                is_shutting_down := false; environ := environment;
                queries := 1; trace := [] |}
  end.

(** The exit status of the interpreter for the outcome of the main module;
    [None] when the process ends by a signal and has none, as it also does
    after a KeyboardInterrupt that nothing caught. *)
Definition exit_status {A} (r : result A) : option Z :=
  match r with
  | Return _ => Some 0
  | Raise (SystemExit code) => Some code
  | Raise KeyboardInterrupt | Raise (Killed _) => None
  | Raise _ => Some 1
  end.

(** Worlds that follow [w]: any number of events handled from it. *)
Inductive follows (w : World) : World -> Prop :=
  | follows_refl : follows w w
  | follows_step w' ev : follows w w' -> follows w (snd (handle_event ev w')).

(** *** Vocabulary of the statements *)





(** The world a view starts from: the before_request hook has run. *)
Definition logged (request : Request) (w : World) : World :=
  snd (log_request request w).

(** The wall clock never steps back, respectively always advances, from one
    reading to the next. *)
Definition clock_never_steps_back : Prop :=
  forall n m : nat, (n <= m)%nat -> wall_clock n <= wall_clock m.

Definition clock_advances : Prop :=
  forall n m : nat, (n < m)%nat -> wall_clock n < wall_clock m.

(** The printed form of a float holds no line feed. *)
Definition floats_print_on_one_line : Prop :=
  forall x : Q, contains_char newline (float_repr x) = false.

End App.

Definition body_json (r : Response) : option json :=
  match data r with
  | Json j => Some j
  | _ => None
  end.

Definition json_field (k : string) (r : Response) : option json :=
  body_json r ≫= json_get k.

Definition uptime_of (r : Response) : option Q :=
  match json_field "uptime" r with
  | Some (JFloat x) => Some x
  | _ => None
  end.

(** The module globals. *)
Definition globals (w : World) : Config * Z * bool :=
  (CONFIG w, start_time w, is_shutting_down w).

(** A computation that writes no module global, leaves the environment alone
    and only adds to the count of queries. *)
Definition framed {A} (m : M A) : Prop :=
  forall w, globals (snd (m w)) = globals w /\
            environ (snd (m w)) = environ w /\
            (queries w <= queries (snd (m w)))%nat.

(** The response carries header [k] once, with value [v]. *)
Definition has_header (k v : string) (r : Response) : Prop :=
  Headers.getlist k (headers r) = [v].

(** The value of DEBUG reads true whatever the case of its letters. *)
Definition spells_true (v : string) : Prop :=
  exists c1 c2 c3 c4 : ascii,
    v = String c1 (String c2 (String c3 (String c4 EmptyString))) /\
    (c1 = "t" \/ c1 = "T")%char /\ (c2 = "r" \/ c2 = "R")%char /\
    (c3 = "u" \/ c3 = "U")%char /\ (c4 = "e" \/ c4 = "E")%char.

(** ** Two platforms for the examples

    Times are microseconds since midnight of one day; a float is printed as
    its count of millionths with exponent -06, which is exact for the
    uptimes below. *)

Definition pad (width : nat) (n : Z) : string :=
  let s := str_of_int n in
  String.concat EmptyString (repeat "0" (width - String.length s)) ++ s.

Definition sample_isoformat (t : Z) : string :=
  let s := t / 1000000 in
  "2024-10-27T" ++ pad 2 (s / 3600) ++ ":" ++ pad 2 (s / 60 mod 60) ++ ":"
    ++ pad 2 (s mod 60) ++ "." ++ pad 6 (t mod 1000000).

Definition sample_float_repr (x : Q) : string :=
  str_of_int (Qfloor (Qmult x (inject_Z 1000000))) ++ "e-06".

Definition sample_platform (clock : nat -> Z) : Platform :=
  {| isoformat := sample_isoformat;
     float_repr := sample_float_repr;
     sys_version := "3.11.9 (main, Apr  2 2024, 12:00:00) [GCC 12.2.0]";
     sys_executable := "/usr/local/bin/python3";
     sys_platform := "linux";
     os_getpid := 1;
     allow_header := "OPTIONS, GET, HEAD";
     wall_clock := clock;
     os_getcwd := fun _ => "/app";
     memory_info := fun _ => (41943040%N, 262144000%N);
     cpu_percent := fun _ => 3 # 2;
     num_fds := fun _ => 7%positive;
     num_threads := fun _ => 2%positive;
     cpu_count := fun _ => Some 4;
     virtual_memory := fun _ => (8589934592%N, 4294967296%N);
     int_max_str_digits := 4300;
     int_of_text := fun _ => None;
     int_error := fun s => "invalid literal for int() with base 10: '" ++ s ++ "'";
     default_action := fun _ => Dies;
     static_rule := fun m _ _ =>
       match m with
       | GET | HEAD => None
       | OPTIONS =>
           Some {| status := 200;
                   headers := [("Content-Type", "text/html; charset=utf-8");
                               ("Allow", "OPTIONS, GET, HEAD")];
                   data := Empty |}
       | OtherMethod _ =>
           Some {| status := 405;
                   headers := [("Content-Type", "text/html; charset=utf-8");
                               ("Allow", "OPTIONS, GET, HEAD")];
                   data := ErrorPage 405 |}
       end;
     access_line := fun request response _ =>
       remote_addr request ++ " - - [27/Oct/2024 02:30:00] "
       ++ quoted (method_name (method request) ++ " " ++ path request ++ " HTTP/1.1")
       ++ " " ++ str_of_int (status response) ++ " -";
     server_banner := [(INFO, " * Running on http://0.0.0.0:8080");
                       (INFO, "Press CTRL+C to quit")];
     debugger_page :=
       {| status := 500;
          headers := [("Content-Type", "text/html; charset=utf-8");
                      ("X-XSS-Protection", "0")];
          data := ErrorPage 500 |};
     server_error_line := fun e => "Error on request: " ++ str_of_exn e |}.

(** A clock that advances a quarter of a second per reading from 02:30. *)
Definition steady : Platform :=
  sample_platform (fun n => 9000000000 + 250000 * Z.of_nat n).

(** A clock read at 02:30 when the module is loaded and set back by one hour
    before the next reading, as local time is when summer time ends. *)
Definition set_back : Platform :=
  sample_platform (fun n => match n with
                            | O => 9000000000
                            | S _ => 5400000000 + 250000 * Z.of_nat n
                            end).

Definition get_request (p : string) : Request :=
  {| method := GET; path := p; remote_addr := "10.0.0.7" |}.

(** The world right after the module is loaded with an empty environment. *)
Definition fresh `{Platform} : World :=
  {| CONFIG := {| port := 8080; host := "0.0.0.0"; env := "production"; debug := false |};
     start_time := wall_clock 0; is_shutting_down := false; environ := ∅;
     queries := 1; trace := [] |}.

(** *** Vocabulary of the further properties *)

(** The line [log_request] writes for a request. *)
Definition request_line (request : Request) : effect :=
  Log INFO ("Request: " ++ method_name (method request) ++ " " ++ path request
            ++ " from " ++ remote_addr request).

(** The names set by [add_security_headers]. *)
Definition security_header_names : list string :=
  ["X-Content-Type-Options"; "X-Frame-Options"; "X-XSS-Protection";
   "Strict-Transport-Security"].

(** The member reached by following the keys from the top of a JSON value. *)
Fixpoint json_path (keys : list string) (j : json) : option json :=
  match keys with
  | [] => Some j
  | k :: keys' =>
      match json_get k j with
      | Some j' => json_path keys' j'
      | None => None
      end
  end.

(** A signal for which [graceful_shutdown] is installed. *)
Definition is_termination (ev : event) : bool :=
  match ev with
  | Signal signum => Z.eqb signum SIGTERM || Z.eqb signum SIGINT
  | Incoming _ => false
  end.

(** A signal that ends the process: the program installed no handler for it
    and the default action is to die. *)
Definition fatal `{Platform} (ev : event) : bool :=
  match ev with
  | Signal signum =>
      negb (is_termination ev)
      && match default_action signum with
         | Dies => true
         | NoEffect => false
         end
  | Incoming _ => false
  end.

(** What [graceful_shutdown] leaves in the trace up to its sleep, and
    after it. *)
Definition shutdown_begins (signum : Z) : list effect :=
  [Log INFO ("Received signal " ++ str_of_int signum ++ ", starting graceful shutdown...");
   Log INFO "Waiting for in-flight requests to complete...";
   Sleep 2].

Definition shutdown_ends : list effect := [Log INFO "Shutdown complete"].

(** The world in which [graceful_shutdown] sleeps. *)
Definition sleeping (signum : Z) (w : World) : World :=
  emit (Sleep 2)
    (emit (Log INFO "Waiting for in-flight requests to complete...")
       (set_is_shutting_down true
          (emit (Log INFO ("Received signal " ++ str_of_int signum
                           ++ ", starting graceful shutdown...")) w))).

(** The two records of a request served under [app.run]: the one of
    [log_request], then werkzeug's, written once the response is known. *)
Definition served_lines `{Platform} (entry : Request * Response * nat) : list effect :=
  [request_line entry.1.1; Log INFO (access_line entry.1.1 entry.1.2 entry.2)].


(** The three lines [__main__] logs before [app.run]. *)
Definition startup_lines (cfg : Config) : list effect :=
  [Log INFO ("Starting application on " ++ host cfg ++ ":" ++ str_of_int (port cfg));
   Log INFO ("Environment: " ++ env cfg);
   Log INFO ("Debug mode: " ++ (if debug cfg then "True" else "False"))].

(** No character of the text is one that [int] strips. *)
Fixpoint no_space (s : string) : bool :=
  match s with
  | EmptyString => true
  | String c s' => negb (isspace c) && no_space s'
  end.

(** * Properties *)

(** ** Text *)

Lemma lower_char_cases (c : ascii) :
  (lower_char c = "t" <-> c = "t" \/ c = "T")%char /\
  (lower_char c = "r" <-> c = "r" \/ c = "R")%char /\
  (lower_char c = "u" <-> c = "u" \/ c = "U")%char /\
  (lower_char c = "e" <-> c = "e" \/ c = "E")%char.
Proof.
  destruct c as [[] [] [] [] [] [] [] []]; vm_compute;
    repeat split; try discriminate; try (intros [E | E]; discriminate E); auto.
Qed.

Lemma lower_spells_true (v : string) : lower v = "true" <-> spells_true v.
Proof.
  unfold spells_true. split.
  - destruct v as [|c1 [|c2 [|c3 [|c4 [|c5 v]]]]]; simpl; try discriminate.
    intros E. injection E as E1 E2 E3 E4.
    exists c1, c2, c3, c4. split; [reflexivity|].
    pose proof (lower_char_cases c1) as (T & _).
    pose proof (lower_char_cases c2) as (_ & R & _).
    pose proof (lower_char_cases c3) as (_ & _ & U & _).
    pose proof (lower_char_cases c4) as (_ & _ & _ & E).
    tauto.
  - intros (c1 & c2 & c3 & c4 & -> & H1 & H2 & H3 & H4). simpl.
    pose proof (lower_char_cases c1) as (T & _).
    pose proof (lower_char_cases c2) as (_ & R & _).
    pose proof (lower_char_cases c3) as (_ & _ & U & _).
    pose proof (lower_char_cases c4) as (_ & _ & _ & E).
    apply T in H1. apply R in H2. apply U in H3. apply E in H4.
    congruence.
Qed.

Lemma contains_char_app c s1 s2 :
  contains_char c (s1 ++ s2) = contains_char c s1 || contains_char c s2.
Proof.
  induction s1 as [|a s1 IH]; [reflexivity|].
  change (String a s1 ++ s2) with (String a (s1 ++ s2)). cbn [contains_char].
  rewrite IH. apply orb_assoc.
Qed.

Lemma uint_one_line (u : Decimal.uint) :
  contains_char newline (NilEmpty.string_of_uint u) = false.
Proof. induction u; simpl; auto. Qed.

Lemma str_of_int_one_line (n : Z) : contains_char newline (str_of_int n) = false.
Proof.
  unfold str_of_int, NilZero.string_of_int, NilZero.string_of_uint.
  destruct (Z.to_int n) as [u | u]; destruct u; simpl; auto using uint_one_line.
Qed.

Lemma lines_line (l rest : string) :
  contains_char newline l = false ->
  lines (l ++ String newline rest) = l :: lines rest.
Proof.
  induction l as [|c l IH].
  - reflexivity.
  - change (String c l ++ String newline rest) with (String c (l ++ String newline rest)).
    cbn [contains_char lines]. intros E. apply orb_false_elim in E as [E1 E2].
    rewrite Ascii.eqb_sym, E1, (IH E2). reflexivity.
Qed.

Lemma lines_unlines (ls : list string) :
  Forall (fun l => contains_char newline l = false) ls ->
  lines (unlines ls) = ls.
Proof.
  induction 1 as [|l ls Hl _ IH]; cbn [unlines]; [reflexivity|].
  rewrite lines_line, IH; auto.
Qed.
(** ** Integers read back from their decimal form *)

Lemma int_digits_acc (u : Decimal.uint) (p : positive) :
  int_digits (NilEmpty.string_of_uint u) (Z.pos p) true
  = Some (Z.pos (Pos.of_uint_acc u p)).
Proof.
  revert p. induction u; intros p; cbn [NilEmpty.string_of_uint Pos.of_uint_acc];
    [reflexivity | ..];
    cbn [int_digits];
    match goal with
    | |- context [digit_of ?c] =>
        let v := eval vm_compute in (digit_of c) in change (digit_of c) with v
    end;
    cbv iota; rewrite <- IHu; f_equal; lia.
Qed.

Lemma int_digits_uint (u : Decimal.uint) :
  int_digits (NilEmpty.string_of_uint u) 0 true = Some (Z.of_N (Pos.of_uint u)).
Proof.
  induction u; cbn [NilEmpty.string_of_uint Pos.of_uint]; [reflexivity | exact IHu | ..];
    apply (int_digits_acc u).
Qed.

Lemma int_digits_uint_start (u : Decimal.uint) :
  u <> Decimal.Nil ->
  int_digits (NilEmpty.string_of_uint u) 0 false = Some (Z.of_N (Pos.of_uint u)).
Proof.
  intros Hu. rewrite <- int_digits_uint. destruct u; [contradiction | reflexivity ..].
Qed.

Lemma no_space_uint (u : Decimal.uint) : no_space (NilEmpty.string_of_uint u) = true.
Proof. induction u; cbn; auto. Qed.

Lemma lstrip_no_space (s : string) : no_space s = true -> lstrip s = s.
Proof.
  destruct s as [|c s]; [reflexivity|]. cbn [no_space lstrip].
  intros Hs. apply andb_prop in Hs as [Hc _].
  destruct (isspace c); [discriminate | reflexivity].
Qed.

Lemma no_space_rev_app (s1 s2 : string) :
  no_space (String.rev_app s1 s2) = no_space s1 && no_space s2.
Proof.
  revert s2. induction s1 as [|c s1 IH]; intros s2; cbn [String.rev_app no_space].
  - reflexivity.
  - rewrite IH. cbn [no_space]. rewrite !andb_assoc. f_equal. apply andb_comm.
Qed.

Lemma rev_app_rev_app (s1 s2 s3 : string) :
  String.rev_app (String.rev_app s1 s2) s3 = String.rev_app s2 (s1 ++ s3).
Proof.
  revert s2. induction s1 as [|c s1 IH]; intros s2; cbn [String.rev_app].
  - reflexivity.
  - rewrite IH. reflexivity.
Qed.

Lemma append_empty (s : string) : s ++ EmptyString = s.
Proof.
  induction s as [|c s IH]; [reflexivity|].
  change (String c s ++ EmptyString) with (String c (s ++ EmptyString)).
  rewrite IH. reflexivity.
Qed.

Lemma strip_no_space (s : string) : no_space s = true -> strip s = s.
Proof.
  intros Hs. unfold strip. rewrite (lstrip_no_space s Hs).
  rewrite lstrip_no_space.
  - unfold String.rev. rewrite rev_app_rev_app. cbn [String.rev_app].
    apply append_empty.
  - unfold String.rev. rewrite no_space_rev_app, Hs. reflexivity.
Qed.

(** The literal [str(n)] has the value [n]. *)
Lemma int_literal_of_int (n : Z) : int_literal (str_of_int n) = Some n.
Proof.
  unfold str_of_int. destruct n as [|p|p]; [reflexivity | |];
    cbn [Z.to_int NilZero.string_of_int];
    pose proof (DecimalPos.Unsigned.to_uint_nonnil p) as Hnil;
    pose proof (DecimalPos.Unsigned.of_to p) as Hval;
    pose proof (no_space_uint (Pos.to_uint p)) as Hclean;
    pose proof (int_digits_uint_start _ Hnil) as Hdigits;
    rewrite Hval in Hdigits;
    unfold int_literal, NilZero.string_of_uint.
  - destruct (Pos.to_uint p) eqn:Hu; [contradiction | ..];
      rewrite strip_no_space by exact Hclean;
      cbn [NilEmpty.string_of_uint]; exact Hdigits.
  - assert (Hs : strip (String "-" (NilEmpty.string_of_uint (Pos.to_uint p)))
                 = String "-" (NilEmpty.string_of_uint (Pos.to_uint p))).
    { apply strip_no_space. cbn [no_space]. rewrite Hclean. reflexivity. }
    destruct (Pos.to_uint p) eqn:Hu; [contradiction | ..];
      rewrite Hs; rewrite Hdigits; reflexivity.
Qed.

Lemma is_ascii_uint (u : Decimal.uint) : is_ascii (NilEmpty.string_of_uint u) = true.
Proof. induction u; cbn; auto. Qed.

Lemma is_ascii_of_int (n : Z) : is_ascii (str_of_int n) = true.
Proof.
  unfold str_of_int. destruct n as [|p|p]; [reflexivity | |];
    cbn [Z.to_int NilZero.string_of_int]; unfold NilZero.string_of_uint.
  - destruct (Pos.to_uint p) eqn:Hu; rewrite <- ?Hu; try reflexivity; apply is_ascii_uint.
  - cbn [is_ascii]. destruct (Pos.to_uint p) eqn:Hu; rewrite <- ?Hu; try reflexivity;
      apply is_ascii_uint.
Qed.

(** ** Headers *)

Lemma same_key_refl k : Headers.same_key k k = true.
Proof. apply String.eqb_refl. Qed.

Lemma same_key_trans_false j k k' :
  Headers.same_key j k = false -> Headers.same_key k k' = true ->
  Headers.same_key j k' = false.
Proof.
  unfold Headers.same_key. intros Hjk Hkk'.
  apply String.eqb_eq in Hkk'. rewrite <- Hkk'. exact Hjk.
Qed.

Lemma getlist_remove_same k hs : Headers.getlist k (Headers.remove k hs) = [].
Proof.
  induction hs as [|[k' v'] hs IH]; cbn [Headers.remove Headers.getlist]; [reflexivity|].
  destruct (Headers.same_key k k') eqn:E; [exact IH|].
  cbn [Headers.getlist]. rewrite E. exact IH.
Qed.

Lemma getlist_remove_other j k hs :
  Headers.same_key j k = false ->
  Headers.getlist j (Headers.remove k hs) = Headers.getlist j hs.
Proof.
  intros Hjk. induction hs as [|[k' v'] hs IH]; cbn [Headers.remove Headers.getlist]; [reflexivity|].
  destruct (Headers.same_key k k') eqn:E.
  - rewrite (same_key_trans_false _ _ _ Hjk E). exact IH.
  - cbn [Headers.getlist]. rewrite IH. reflexivity.
Qed.

Lemma getlist_set_same k v hs : Headers.getlist k (Headers.set k v hs) = [v].
Proof.
  induction hs as [|[k' v'] hs IH]; cbn [Headers.set Headers.getlist].
  - rewrite same_key_refl. reflexivity.
  - destruct (Headers.same_key k k') eqn:E; cbn [Headers.getlist].
    + rewrite same_key_refl, getlist_remove_same. reflexivity.
    + rewrite E. exact IH.
Qed.

Lemma getlist_set_other j k v hs :
  Headers.same_key j k = false ->
  Headers.getlist j (Headers.set k v hs) = Headers.getlist j hs.
Proof.
  intros Hjk. induction hs as [|[k' v'] hs IH]; cbn [Headers.set Headers.getlist].
  - rewrite Hjk. reflexivity.
  - destruct (Headers.same_key k k') eqn:E; cbn [Headers.getlist].
    + rewrite Hjk, (same_key_trans_false _ _ _ Hjk E).
      apply getlist_remove_other, Hjk.
    + rewrite IH. reflexivity.
Qed.

Lemma get_head_getlist k hs : Headers.get k hs = head (Headers.getlist k hs).
Proof.
  induction hs as [|[k' v'] hs IH]; cbn [Headers.get Headers.getlist]; [reflexivity|].
  destruct (Headers.same_key k k'); [reflexivity | exact IH].
Qed.

Lemma set_header_status k v r : status (set_header k v r) = status r.
Proof. reflexivity. Qed.

Lemma set_header_data k v r : data (set_header k v r) = data r.
Proof. reflexivity. Qed.

Section Properties.
Context `{Platform}.

Lemma add_security_headers_carries (r : Response) :
  has_header "X-Content-Type-Options" "nosniff" (add_security_headers r) /\
  has_header "X-Frame-Options" "DENY" (add_security_headers r) /\
  has_header "X-XSS-Protection" "1; mode=block" (add_security_headers r) /\
  has_header "Strict-Transport-Security" "max-age=31536000; includeSubDomains"
    (add_security_headers r).
Proof.
  unfold has_header, add_security_headers, set_header, with_headers.
  cbn [headers].
  repeat split;
    repeat first
      [ apply getlist_set_same
      | rewrite getlist_set_other by reflexivity ].
Qed.

Lemma add_security_headers_keeps (r : Response) :
  status (add_security_headers r) = status r /\ data (add_security_headers r) = data r.
Proof. split; reflexivity. Qed.

Lemma add_security_headers_content_type (r : Response) :
  Headers.getlist "Content-Type" (headers (add_security_headers r))
  = Headers.getlist "Content-Type" (headers r).
Proof.
  unfold add_security_headers, set_header, with_headers. cbn [headers].
  repeat rewrite getlist_set_other by reflexivity. reflexivity.
Qed.

(** ** Frames *)

Lemma framed_ret {A} (a : A) : framed (mret a : M A).
Proof. intros w. cbn. auto. Qed.

Lemma framed_raise {A} (e : exn) : framed (raise e : M A).
Proof. intros w. cbn. auto. Qed.

Lemma framed_gets {A} (f : World -> A) : framed (gets f).
Proof. intros w. cbn. auto. Qed.

Lemma framed_query {A} (oracle : nat -> A) : framed (query oracle).
Proof. intros w. cbn. auto. Qed.

Lemma framed_emit (e : effect) : framed (modify (emit e)).
Proof. intros w. cbn. auto. Qed.

Lemma framed_bind {A B} (m : M A) (k : A -> M B) :
  framed m -> (forall a, framed (k a)) -> framed (m ≫= k).
Proof.
  intros Hm Hk w. unfold mbind, M_bind.
  specialize (Hm w). destruct (m w) as [[a | e] w1]; cbn [snd] in *.
  - destruct (Hk a w1) as (G & E & Q). destruct Hm as (G1 & E1 & Q1).
    rewrite G, E. repeat split; auto. lia.
  - exact Hm.
Qed.

Lemma framed_try_except {A} (m : M A) (h : exn -> M A) :
  framed m -> (forall e, framed (h e)) -> framed (try_except m h).
Proof.
  intros Hm Hh w. unfold try_except.
  specialize (Hm w). destruct (m w) as [[a | e] w1]; cbn [snd] in *.
  - exact Hm.
  - destruct (Hh e w1) as (G & E & Q). destruct Hm as (G1 & E1 & Q1).
    rewrite G, E. repeat split; auto. lia.
Qed.

Ltac frame :=
  repeat first
    [ apply framed_ret | apply framed_raise | apply framed_gets
    | apply framed_query | apply framed_emit
    | apply framed_bind | apply framed_try_except
    | progress intros
    | match goal with
      | |- framed (if ?b then _ else _) => destruct b
      | |- framed (match ?x with _ => _ end) => destruct x
      end ].

Lemma framed_index : framed index.
Proof. unfold index, now. frame. Qed.
Lemma framed_health : framed health.
Proof. unfold health, now. frame. Qed.
Lemma framed_ready : framed ready.
Proof. unfold ready, now. frame. Qed.
Lemma framed_metrics : framed metrics.
Proof. unfold metrics, now. frame. Qed.
Lemma framed_info : framed info.
Proof. unfold info, now. frame. Qed.
Lemma framed_not_found request e : framed (not_found request e).
Proof. unfold not_found. frame. Qed.
Lemma framed_internal_error e : framed (internal_error e).
Proof. unfold internal_error, logger_error. frame. Qed.
Lemma framed_log_request request : framed (log_request request).
Proof. unfold log_request, logger_info. frame. Qed.

Lemma url_map_views (p : string) (view : M view_rv) :
  assoc p url_map = Some view ->
  view = index \/ view = health \/ view = ready \/ view = metrics \/ view = info.
Proof.
  unfold url_map. cbn [assoc].
  repeat match goal with |- context [String.eqb p ?s] => destruct (String.eqb p s) end;
    intros [= <-]; tauto.
Qed.

Lemma framed_view p view : assoc p url_map = Some view -> framed view.
Proof.
  intros Hv. apply url_map_views in Hv as [-> | [-> | [-> | [-> | ->]]]];
    auto using framed_index, framed_health, framed_ready, framed_metrics, framed_info.
Qed.

Lemma framed_wsgi_app request : framed (wsgi_app request).
Proof.
  unfold wsgi_app, full_dispatch_request.
  apply framed_try_except.
  - apply framed_bind; [apply framed_log_request|]. intros _.
    apply framed_bind; [|intros; apply framed_ret].
    apply framed_try_except.
    + unfold dispatch_request.
      destruct (assoc (path request) url_map) as [view|] eqn:E; [|frame].
      pose proof (framed_view _ _ E). destruct (method request); frame; assumption.
    + intros e. unfold handle_user_exception. destruct e; frame.
  - intros e. destruct (is_Exception e); [|apply framed_raise].
    unfold handle_exception, logger_error. frame; apply framed_internal_error.
Qed.

(** ** What each view returns *)

Lemma index_eq (w : World) :
  index w =
  if is_shutting_down w then
    (Return (RvStatus (jsonify (JObj [("error", JStr "Service shutting down")])) 503), w)
  else
    (Return (Rv (jsonify (JObj [
       ("message", JStr "Hello from Python Docker base image!");
       ("version", JStr "1.0.0");
       ("environment", JStr (env (CONFIG w)));
       ("timestamp", JStr (isoformat (wall_clock (queries w))));
       ("python_version", JStr sys_version)]))), tick w).
Proof.
  unfold index, mbind, M_bind, gets. destruct (is_shutting_down w); reflexivity.
Qed.

Lemma index_draining (w : World) :
  is_shutting_down w = true ->
  index w =
  (Return (RvStatus (jsonify (JObj [("error", JStr "Service shutting down")])) 503), w).
Proof. intros E. rewrite index_eq, E. reflexivity. Qed.

Lemma index_serving (w : World) :
  is_shutting_down w = false ->
  index w =
  (Return (Rv (jsonify (JObj [
     ("message", JStr "Hello from Python Docker base image!");
     ("version", JStr "1.0.0");
     ("environment", JStr (env (CONFIG w)));
     ("timestamp", JStr (isoformat (wall_clock (queries w))));
     ("python_version", JStr sys_version)]))), tick w).
Proof. intros E. rewrite index_eq, E. reflexivity. Qed.

Lemma health_eq (w : World) :
  health w =
  (Return (Rv (jsonify (JObj [
     ("status", JStr "healthy");
     ("uptime", JFloat (total_seconds (wall_clock (queries w) - start_time w)));
     ("timestamp", JStr (isoformat (wall_clock (S (queries w)))))]))),
   tick (tick w)).
Proof. reflexivity. Qed.

Lemma ready_eq (w : World) :
  ready w =
  (Return (RvStatus (jsonify (JObj [
     ("ready", JBool (negb (is_shutting_down w)));
     ("timestamp", JStr (isoformat (wall_clock (queries w))))]))
     (if negb (is_shutting_down w) then 200 else 503)),
   tick w).
Proof. reflexivity. Qed.

Lemma metrics_eq (w : World) :
  metrics w =
  (Return (RvText
     (metrics_text
        (total_seconds (wall_clock (queries w) - start_time w))
        (cpu_percent (2 + queries w))
        (Z.of_N (fst (memory_info (1 + queries w))))
        (Z.of_N (snd (memory_info (1 + queries w))))
        (Z.pos (num_fds (3 + queries w)))
        (Z.pos (num_threads (4 + queries w))))
     200 [("Content-Type", "text/plain; charset=utf-8")]),
   tick (tick (tick (tick (tick w))))).
Proof. reflexivity. Qed.

Lemma info_returns (w : World) :
  exists j, info w = (Return (Rv (jsonify j)), tick (tick (tick (tick w)))).
Proof. eexists. reflexivity. Qed.

(** ** The request cycle *)

Lemma wsgi_app_view (request : Request) (view : M view_rv) (w w' : World) (rv : view_rv) :
  assoc (path request) url_map = Some view ->
  method request = GET \/ method request = HEAD ->
  view (logged request w) = (Return rv, w') ->
  wsgi_app request w = (Return (add_security_headers (make_response rv)), w').
Proof.
  intros Hroute Hmethod Hview.
  unfold wsgi_app, full_dispatch_request, try_except, mbind, M_bind, dispatch_request.
  rewrite Hroute.
  change (log_request request w) with (Return tt, logged request w).
  destruct Hmethod as [-> | ->]; rewrite Hview; reflexivity.
Qed.

Lemma wsgi_app_unmatched (request : Request) (w : World) :
  assoc (path request) url_map = None ->
  under_static (path request) = false ->
  wsgi_app request w =
  (Return (add_security_headers (with_status 404 (jsonify (JObj [
     ("error", JStr "Not Found"); ("path", JStr (path request))])))),
   logged request w).
Proof.
  intros Hroute Hstatic.
  unfold wsgi_app, full_dispatch_request, try_except, mbind, M_bind, dispatch_request.
  rewrite Hroute, Hstatic. reflexivity.
Qed.

(** Under /static/ the answer is the static rule's, or the 404 handler's
    when the rule raises NotFound. *)
Lemma wsgi_app_static (request : Request) (w : World) :
  assoc (path request) url_map = None ->
  under_static (path request) = true ->
  wsgi_app request w =
  (Return (add_security_headers
     match static_rule (method request) (path request) (queries w) with
     | Some response => response
     | None => with_status 404 (jsonify (JObj [
         ("error", JStr "Not Found"); ("path", JStr (path request))]))
     end),
   tick (logged request w)).
Proof.
  intros Hroute Hstatic.
  unfold wsgi_app, full_dispatch_request, try_except, mbind, M_bind, dispatch_request.
  rewrite Hroute, Hstatic.
  change (log_request request w) with (Return tt, logged request w).
  unfold query, mbind, M_bind.
  change (queries (logged request w)) with (queries w).
  destruct (static_rule (method request) (path request) (queries w)); reflexivity.
Qed.

Lemma view_returns (p : string) (view : M view_rv) (w : World) :
  assoc p url_map = Some view -> exists rv w', view w = (Return rv, w').
Proof.
  intros Hv. apply url_map_views in Hv as [-> | [-> | [-> | [-> | ->]]]].
  - rewrite index_eq. destruct (is_shutting_down w); eauto.
  - rewrite health_eq. eauto.
  - rewrite ready_eq. eauto.
  - rewrite metrics_eq. eauto.
  - destruct (info_returns w) as [j ->]. eauto.
Qed.

(** Whatever the request, the cycle ends in a response, and the response
    went through the after_request hook. *)
Lemma wsgi_app_returns (request : Request) (w : World) :
  exists r w', wsgi_app request w = (Return (add_security_headers r), w').
Proof.
  destruct (assoc (path request) url_map) as [view|] eqn:Hroute.
  - destruct (view_returns _ _ (logged request w) Hroute) as (rv & w' & Hview).
    destruct (method request) eqn:Hm.
    + eexists _, _. eapply wsgi_app_view; eauto.
    + eexists _, _. eapply wsgi_app_view; eauto.
    + eexists _, _.
      unfold wsgi_app, full_dispatch_request, try_except, mbind, M_bind, dispatch_request.
      rewrite Hroute, Hm. reflexivity.
    + eexists _, _.
      unfold wsgi_app, full_dispatch_request, try_except, mbind, M_bind, dispatch_request.
      rewrite Hroute, Hm. reflexivity.
  - destruct (under_static (path request)) eqn:Hstatic.
    + eexists _, _. apply wsgi_app_static; assumption.
    + eexists _, _. apply wsgi_app_unmatched; assumption.
Qed.

(** The cycle leaves one record, the one of [log_request], and makes at
    most five queries. *)
Lemma wsgi_app_trace (request : Request) (w : World) :
  exists (response : Response) (w' : World),
    wsgi_app request w = (Return response, w') /\
    trace w' = (trace w ++ [request_line request])%list /\
    (queries w <= queries w' <= queries w + 5)%nat.
Proof.
  destruct (assoc (path request) url_map) as [view|] eqn:Hroute.
  - assert (Hview : exists rv w', view (logged request w) = (Return rv, w') /\
                      trace w' = trace (logged request w) /\
                      (queries w <= queries w' <= queries w + 5)%nat).
    { apply url_map_views in Hroute as [-> | [-> | [-> | [-> | ->]]]].
      - rewrite index_eq. cbn. destruct (is_shutting_down w); eexists _, _;
          (split; [reflexivity|]); cbn; (split; [reflexivity | lia]).
      - rewrite health_eq. eexists _, _. split; [reflexivity|]. cbn. split; [reflexivity | lia].
      - rewrite ready_eq. eexists _, _. split; [reflexivity|]. cbn. split; [reflexivity | lia].
      - rewrite metrics_eq. eexists _, _. split; [reflexivity|]. cbn. split; [reflexivity | lia].
      - destruct (info_returns (logged request w)) as (j & ->).
        eexists _, _. split; [reflexivity|]. cbn. split; [reflexivity | lia]. }
    destruct Hview as (rv & w' & Hv & Htrace & Hq).
    destruct (method request) eqn:Hm.
    + eexists _, w'. split; [eapply wsgi_app_view; eauto|]. rewrite Htrace. auto.
    + eexists _, w'. split; [eapply wsgi_app_view; eauto|]. rewrite Htrace. auto.
    + eexists _, _. split.
      * unfold wsgi_app, full_dispatch_request, try_except, mbind, M_bind, dispatch_request.
        rewrite Hroute, Hm. reflexivity.
      * cbn. split; [reflexivity | lia].
    + eexists _, _. split.
      * unfold wsgi_app, full_dispatch_request, try_except, mbind, M_bind, dispatch_request.
        rewrite Hroute, Hm. reflexivity.
      * cbn. split; [reflexivity | lia].
  - destruct (under_static (path request)) eqn:Hstatic.
    + eexists _, _. split; [apply wsgi_app_static; assumption|].
      cbn. split; [reflexivity | lia].
    + eexists _, _. split; [apply wsgi_app_unmatched; assumption|].
      cbn. split; [reflexivity | lia].
Qed.

Lemma logged_fields (request : Request) (w : World) :
  globals (logged request w) = globals w /\
  queries (logged request w) = queries w /\
  environ (logged request w) = environ w.
Proof. repeat split. Qed.

(** ** Events and the worlds that follow *)

Lemma graceful_shutdown_eq (signum : Z) (w : World) :
  graceful_shutdown signum w =
  (Raise (SystemExit 0),
   emit (Log INFO "Shutdown complete")
     (emit (Sleep 2)
       (emit (Log INFO "Waiting for in-flight requests to complete...")
         (set_is_shutting_down true
           (emit (Log INFO ("Received signal " ++ str_of_int signum
                            ++ ", starting graceful shutdown...")) w))))).
Proof. reflexivity. Qed.

Lemma signal_handler_cases (signum : Z) :
  (signum = SIGTERM \/ signum = SIGINT) /\ signal_handler signum = Some graceful_shutdown
  \/ signum <> SIGTERM /\ signum <> SIGINT /\ signal_handler signum = None.
Proof.
  unfold signal_handler, signal_handlers, SIGTERM, SIGINT.
  cbn [List.find fst snd].
  destruct (Z.eqb_spec 15 signum) as [<- | H15]; [left; auto|].
  destruct (Z.eqb_spec 2 signum) as [<- | H2]; [left; auto|].
  right. repeat split; congruence.
Qed.

Lemma deliver_signal_cases (signum : Z) :
  (signum = SIGTERM \/ signum = SIGINT) /\ deliver_signal signum = graceful_shutdown signum
  \/ signum <> SIGTERM /\ signum <> SIGINT /\
     deliver_signal signum =
     match default_action signum with
     | Dies => raise (Killed signum)
     | NoEffect => mret tt
     end.
Proof.
  unfold deliver_signal.
  destruct (signal_handler_cases signum) as [[Hs ->] | (H1 & H2 & ->)]; auto.
Qed.

Lemma deliver_signal_unhandled (signum : Z) (w : World) :
  signum <> SIGTERM -> signum <> SIGINT -> snd (deliver_signal signum w) = w.
Proof.
  intros H1 H2.
  destruct (deliver_signal_cases signum) as [[[Hs | Hs] _] | (_ & _ & ->)];
    [contradiction | contradiction |].
  destruct (default_action signum); reflexivity.
Qed.

Lemma framed_server_on_escape (e : exn) : framed (server_on_escape e).
Proof. unfold server_on_escape. frame. Qed.

Lemma framed_serve_request (request : Request) : framed (serve_request request).
Proof.
  unfold serve_request, logger_info.
  apply framed_bind; [|frame].
  apply framed_try_except; [apply framed_wsgi_app | apply framed_server_on_escape].
Qed.

(** Under the server a request is answered by what the application
    returns, and the access record follows the application's own. *)
Lemma serve_request_eq (request : Request) (w : World) :
  exists (response : Response) (w' : World),
    wsgi_app request w = (Return response, w') /\
    serve_request request w =
    (Return response,
     emit (Log INFO (access_line request response (queries w'))) (tick w')).
Proof.
  destruct (wsgi_app_returns request w) as (r & w' & E).
  exists (add_security_headers r), w'. split; [exact E|].
  unfold serve_request, try_except, mbind, M_bind. rewrite E. reflexivity.
Qed.

Lemma handle_event_incoming (request : Request) (w : World) :
  exists w', handle_event (Incoming request) w = (Return tt, w') /\
             w' = snd (serve_request request w).
Proof.
  destruct (serve_request_eq request w) as (r & w' & _ & E).
  eexists. cbn [handle_event]. unfold mbind, M_bind.
  rewrite E. auto.
Qed.

Lemma handle_event_stable (ev : event) (w : World) :
  let w' := snd (handle_event ev w) in
  CONFIG w' = CONFIG w /\ start_time w' = start_time w /\ environ w' = environ w /\
  (is_shutting_down w = true -> is_shutting_down w' = true) /\
  (queries w <= queries w')%nat.
Proof.
  destruct ev as [request | signum]; cbn zeta.
  - destruct (handle_event_incoming request w) as (w' & -> & ->). cbn [snd].
    destruct (framed_serve_request request w) as (G & E & Q).
    unfold globals in G. injection G as G1 G2 G3.
    rewrite G1, G2, G3, E. auto.
  - cbn [handle_event].
    destruct (deliver_signal_cases signum) as [[_ ->] | (H1 & H2 & _)].
    + rewrite graceful_shutdown_eq. cbn. auto.
    + rewrite deliver_signal_unhandled by assumption. auto.
Qed.

Lemma follows_stable (w0 w : World) :
  follows w0 w ->
  CONFIG w = CONFIG w0 /\ start_time w = start_time w0 /\ environ w = environ w0 /\
  (is_shutting_down w0 = true -> is_shutting_down w = true) /\
  (queries w0 <= queries w)%nat.
Proof.
  induction 1 as [|w' ev _ (C & S & E & F & Q)].
  - auto.
  - destruct (handle_event_stable ev w') as (C' & S' & E' & F' & Q'). cbn zeta in *.
    rewrite C', S', E'. repeat split; auto. lia.
Qed.

Lemma follows_trans (w0 w1 w2 : World) : follows w0 w1 -> follows w1 w2 -> follows w0 w2.
Proof. intros H01 H12. induction H12; [assumption | constructor; assumption]. Qed.

(** ** The server loop *)

Lemma sleeping_fields (signum : Z) (w : World) :
  CONFIG (sleeping signum w) = CONFIG w /\ start_time (sleeping signum w) = start_time w /\
  environ (sleeping signum w) = environ w /\ queries (sleeping signum w) = queries w /\
  is_shutting_down (sleeping signum w) = true /\
  trace (sleeping signum w) = (trace w ++ shutdown_begins signum)%list.
Proof.
  repeat split. cbn. rewrite <- !app_assoc. reflexivity.
Qed.

Lemma graceful_shutdown_interrupted_eq (during : M unit) (signum : Z) (w : World) :
  graceful_shutdown_interrupted during signum w =
  match during (sleeping signum w) with
  | (Return _, w') => (Raise (SystemExit 0), emit (Log INFO "Shutdown complete") w')
  | (Raise e, w') => (Raise e, w')
  end.
Proof.
  unfold graceful_shutdown_interrupted, mbind, M_bind, logger_info, time_sleep, modify.
  change (emit (Sleep 2) _) with (sleeping signum w).
  destruct (during (sleeping signum w)) as [[[] | e] w']; reflexivity.
Qed.

(** With nothing arriving during the sleep the handler is the source's. *)
Lemma graceful_shutdown_uninterrupted (signum : Z) (w : World) :
  graceful_shutdown_interrupted (mret tt) signum w = graceful_shutdown signum w.
Proof. reflexivity. Qed.

Lemma serve_forever_signal (signum : Z) (events : list event) (w : World) :
  signum = SIGTERM \/ signum = SIGINT ->
  serve_forever (Signal signum :: events) w =
  match serve_forever events (sleeping signum w) with
  | (Return _, w') => (Raise (SystemExit 0), emit (Log INFO "Shutdown complete") w')
  | (Raise e, w') => (Raise e, w')
  end.
Proof.
  intros Hs. cbn [serve_forever].
  destruct (signal_handler_cases signum) as [[_ ->] | (H1 & H2 & _)]; [|tauto].
  apply graceful_shutdown_interrupted_eq.
Qed.

Lemma serve_forever_unhandled (signum : Z) (events : list event) (w : World) :
  signum <> SIGTERM -> signum <> SIGINT ->
  serve_forever (Signal signum :: events) w =
  match default_action signum with
  | Dies => (Raise (Killed signum), w)
  | NoEffect => serve_forever events w
  end.
Proof.
  intros H1 H2. cbn [serve_forever].
  destruct (signal_handler_cases signum) as [[[Hs | Hs] _] | (_ & _ & ->)];
    [contradiction | contradiction |].
  destruct (default_action signum); reflexivity.
Qed.

Lemma serve_forever_incoming (request : Request) (events : list event) (w : World) :
  exists (response : Response) (w1 : World),
    wsgi_app request w = (Return response, w1) /\
    serve_forever (Incoming request :: events) w =
    serve_forever events
      (emit (Log INFO (access_line request response (queries w1))) (tick w1)).
Proof.
  destruct (serve_request_eq request w) as (response & w1 & E & Es).
  exists response, w1. split; [exact E|].
  cbn [serve_forever]. unfold mbind, M_bind. rewrite Es. reflexivity.
Qed.

Lemma signal_cases (signum : Z) :
  (signum = SIGTERM \/ signum = SIGINT) \/ (signum <> SIGTERM /\ signum <> SIGINT).
Proof. unfold SIGTERM, SIGINT. lia. Qed.

(** What a served request leaves behind. *)
Lemma served_world (request : Request) (response : Response) (w w1 : World) :
  wsgi_app request w = (Return response, w1) ->
  let w2 := emit (Log INFO (access_line request response (queries w1))) (tick w1) in
  globals w2 = globals w /\ environ w2 = environ w /\
  trace w2 = (trace w ++ served_lines (request, response, queries w1))%list.
Proof.
  intros E. cbn zeta.
  destruct (framed_wsgi_app request w) as (G & En & _).
  destruct (wsgi_app_trace request w) as (r' & w1' & E' & Ht & _).
  rewrite E in G, En, E'. cbn [snd] in G, En.
  assert (w1' = w1) as -> by congruence.
  split; [exact G|]. split; [exact En|].
  cbn [trace emit tick]. rewrite Ht, <- app_assoc. reflexivity.
Qed.

(** The loop writes no global but the flag, which it only sets, and it only
    adds to the trace. *)
Lemma serve_forever_stable (events : list event) (w : World) :
  let w' := snd (serve_forever events w) in
  CONFIG w' = CONFIG w /\ start_time w' = start_time w /\ environ w' = environ w /\
  (is_shutting_down w = true -> is_shutting_down w' = true) /\
  exists added, trace w' = (trace w ++ added)%list.
Proof.
  cbn zeta. revert w. induction events as [|ev events IH]; intros w.
  - cbn. repeat split; auto. exists []. rewrite app_nil_r. reflexivity.
  - destruct ev as [request | signum].
    + destruct (serve_forever_incoming request events w) as (response & w1 & E & ->).
      destruct (served_world _ _ _ _ E) as (G & En & Ht). cbn zeta in *.
      unfold globals in G. injection G as G1 G2 G3.
      match goal with |- context [serve_forever events ?w2] =>
        destruct (IH w2) as (C & S & V & F & (added & T)) end.
      split; [rewrite C; exact G1|]. split; [rewrite S; exact G2|].
      split; [rewrite V; exact En|]. split.
      * intros Hf. apply F. rewrite <- Hf. exact G3.
      * rewrite T, Ht, <- app_assoc. eauto.
    + destruct (signal_cases signum) as [Hs | [H1 H2]].
      * rewrite (serve_forever_signal _ _ _ Hs).
        destruct (IH (sleeping signum w)) as (C & S & V & F & (added & T)).
        destruct (sleeping_fields signum w) as (C1 & S1 & V1 & _ & F1 & T1).
        destruct (serve_forever events (sleeping signum w)) as [[[] | e] w']; cbn [snd] in *.
        -- cbn [CONFIG start_time environ is_shutting_down trace emit].
           rewrite C, S, V, T, T1. repeat split; auto.
           rewrite <- !app_assoc. eauto.
        -- rewrite C, S, V, T, T1. repeat split; auto.
           rewrite <- !app_assoc. eauto.
      * rewrite (serve_forever_unhandled _ _ _ H1 H2).
        destruct (default_action signum); [|apply IH].
        cbn. repeat split; auto. exists []. rewrite app_nil_r. reflexivity.
Qed.


Lemma log_records_eq (records : list (level * string)) (w : World) :
  log_records records w =
  (Return tt,
   {| CONFIG := CONFIG w; start_time := start_time w;
      is_shutting_down := is_shutting_down w; environ := environ w;
      queries := queries w;
      trace := (trace w ++ map (fun record => Log record.1 record.2) records)%list |}).
Proof.
  revert w. induction records as [|[lvl msg] records IH]; intros w; cbn [log_records map].
  - rewrite app_nil_r. destruct w; reflexivity.
  - unfold mbind, M_bind, modify. rewrite IH. cbn. rewrite <- app_assoc. reflexivity.
Qed.

Lemma app_run_stable (run : server_run) (w : World) :
  let w' := snd (app_run run w) in
  CONFIG w' = CONFIG w /\ start_time w' = start_time w /\ environ w' = environ w /\
  (is_shutting_down w = true -> is_shutting_down w' = true) /\
  exists added, trace w' = (trace w ++ added)%list.
Proof.
  cbn zeta. destruct run as [e | events]; cbn [app_run].
  - cbn. repeat split; auto. exists []. rewrite app_nil_r. reflexivity.
  - unfold mbind, M_bind. rewrite log_records_eq.
    match goal with |- context [serve_forever events ?w1] =>
      destruct (serve_forever_stable events w1) as (C & S & V & F & (added & T)) end.
    cbn zeta in *. rewrite C, S, V, T. cbn. repeat split; auto.
    rewrite <- app_assoc. eauto.
Qed.

(** The world in which [__main__] calls [app.run]. *)
Lemma main_eq (run : server_run) (w : World) :
  let w3 := {| CONFIG := CONFIG w; start_time := start_time w;
               is_shutting_down := is_shutting_down w; environ := environ w;
               queries := queries w;
               trace := (trace w ++ startup_lines (CONFIG w))%list |} in
  main run w =
  match app_run run w3 with
  | (Return _, w') => (Return tt, w')
  | (Raise e, w') =>
      if is_Exception e then
        (Raise (SystemExit 1),
         emit (Log ERROR ("Failed to start application: " ++ str_of_exn e)) w')
      else (Raise e, w')
  end.
Proof.
  cbn zeta.
  unfold main, mbind at 1, M_bind at 1, gets.
  unfold mbind, M_bind, logger_info, modify, try_except.
  match goal with |- context [app_run run (emit ?c (emit ?b (emit ?a w)))] =>
    set (w0 := emit c (emit b (emit a w)))
  end.
  match goal with |- _ = match app_run run ?w3 with _ => _ end =>
    assert (H3 : w0 = w3)
      by (unfold w0, emit; cbn; rewrite <- !app_assoc; reflexivity);
    rewrite <- H3
  end.
  destruct (app_run run w0) as [[[] | e] w']; [reflexivity|].
  destruct (is_Exception e); reflexivity.
Qed.

Lemma main_stable (run : server_run) (w : World) :
  let w' := snd (main run w) in
  CONFIG w' = CONFIG w /\ start_time w' = start_time w /\ environ w' = environ w /\
  (is_shutting_down w = true -> is_shutting_down w' = true) /\
  exists rest, trace w' = (trace w ++ startup_lines (CONFIG w) ++ rest)%list.
Proof.
  cbn zeta. rewrite main_eq. cbn zeta.
  match goal with |- context [app_run run ?w3] =>
    destruct (app_run_stable run w3) as (C & S & V & F & (added & T));
    destruct (app_run run w3) as [[[] | e] w'] end; cbn [snd] in *.
  - rewrite C, S, V, T. cbn. repeat split; auto. rewrite <- app_assoc. eauto.
  - destruct (is_Exception e); cbn [snd CONFIG start_time environ is_shutting_down trace emit];
      rewrite ?C, ?S, ?V, T; cbn; repeat split; auto; rewrite <- !app_assoc; eauto.
Qed.


End Properties.

Section Claims.
Context `{Platform}.


Lemma total_seconds_nonneg (d : Z) : 0 <= d -> (0 <= total_seconds d)%Q.
Proof. intros Hd. unfold total_seconds, Qle. cbn. lia. Qed.

Lemma total_seconds_le (d1 d2 : Z) : d1 <= d2 -> (total_seconds d1 <= total_seconds d2)%Q.
Proof. intros Hd. unfold total_seconds, Qle. cbn. lia. Qed.

Lemma total_seconds_lt (d1 d2 : Z) : d1 < d2 -> (total_seconds d1 < total_seconds d2)%Q.
Proof. intros Hd. unfold total_seconds, Qlt. cbn. lia. Qed.

Lemma import_module_world (environment : gmap string string) (w0 : World) :
  import_module environment = Return w0 ->
  load_config environment = Return (CONFIG w0) /\
  start_time w0 = wall_clock 0 /\ is_shutting_down w0 = false /\
  environ w0 = environment /\ queries w0 = 1%nat /\ trace w0 = [].
Proof.
  unfold import_module. destruct (load_config environment) as [cfg | e]; [|discriminate].
  intros [= <-]. cbn. auto 10.
Qed.

Lemma metrics_samples (uptime cpu : Q) (rss vms fds threads : Z) :
  floats_print_on_one_line ->
  samples (metrics_text uptime cpu rss vms fds threads) =
  [ "process_uptime_seconds " ++ float_repr uptime;
    "process_cpu_percent " ++ float_repr cpu;
    "process_memory_bytes{type=" ++ quoted "rss" ++ "} " ++ str_of_int rss;
    "process_memory_bytes{type=" ++ quoted "vms" ++ "} " ++ str_of_int vms;
    "process_open_fds " ++ str_of_int fds;
    "process_threads " ++ str_of_int threads ].
Proof.
  intros Hfloat. unfold samples, metrics_text.
  rewrite lines_unlines; [reflexivity|].
  repeat constructor;
    rewrite ?contains_char_app, ?Hfloat, ?str_of_int_one_line; reflexivity.
Qed.

(** C1: a GET of /ready answers with [ready] true exactly when the shutdown
    flag is false, with status 200 when [ready] is true and 503 when it is
    false. *)
Theorem ready_reports_the_flag (request : Request) (w : World) :
  method request = GET -> path request = "/ready" ->
  exists (response : Response) (w' : World) (is_ready : bool),
    wsgi_app request w = (Return response, w') /\
    json_field "ready" response = Some (JBool is_ready) /\
    (is_ready = true <-> is_shutting_down w = false) /\
    (is_ready = true -> status response = 200) /\
    (is_ready = false -> status response = 503).
Proof.
  intros Hm Hp.
  eexists _, _, (negb (is_shutting_down w)). split.
  - eapply wsgi_app_view with (view := ready);
      [rewrite Hp; reflexivity | auto | apply ready_eq].
  - cbn. destruct (is_shutting_down w); cbn; repeat split; congruence.
Qed.

(** C3: a GET of / is refused with 503 and the body
    {"error": "Service shutting down"} when the shutdown flag is set;
    otherwise it is answered with 200 and a JSON object holding the message,
    the version "1.0.0", the configured environment name, the ISO form of the
    clock reading taken by the request, and the runtime version string. *)
Theorem index_greets_or_refuses (request : Request) (w : World) :
  method request = GET -> path request = "/" ->
  exists (response : Response) (w' : World),
    wsgi_app request w = (Return response, w') /\
    has_header "Content-Type" "application/json" response /\
    if is_shutting_down w then
      status response = 503 /\
      data response = Json (JObj [("error", JStr "Service shutting down")])
    else
      status response = 200 /\
      json_field "message" response = Some (JStr "Hello from Python Docker base image!") /\
      json_field "version" response = Some (JStr "1.0.0") /\
      json_field "environment" response = Some (JStr (env (CONFIG w))) /\
      json_field "timestamp" response = Some (JStr (isoformat (wall_clock (queries w)))) /\
      json_field "python_version" response = Some (JStr sys_version).
Proof.
  intros Hm Hp.
  destruct (is_shutting_down w) eqn:Hflag.
  - eexists _, _. split.
    + eapply wsgi_app_view with (view := index);
        [rewrite Hp; reflexivity | auto | apply index_draining, Hflag].
    + unfold has_header. rewrite add_security_headers_content_type. cbn. auto.
  - eexists _, _. split.
    + eapply wsgi_app_view with (view := index);
        [rewrite Hp; reflexivity | auto | apply index_serving, Hflag].
    + unfold has_header. rewrite add_security_headers_content_type. cbn. auto 10.
Qed.

(** C4 (amended): every response the application returns, whatever the
    method, the path and the status (the 404, 405 and 503 answers included),
    carries the four security headers, each once and with its documented
    value.  When an exception reaches Flask and debug mode is off, Flask
    logs it, the 500 handler logs and answers, and that answer carries the
    four headers too; in debug mode the exception is raised again and the
    application returns no response. *)
Theorem application_responses_carry_the_security_headers :
  (forall (request : Request) (w : World),
     exists (response : Response) (w' : World),
       wsgi_app request w = (Return response, w') /\
       has_header "X-Content-Type-Options" "nosniff" response /\
       has_header "X-Frame-Options" "DENY" response /\
       has_header "X-XSS-Protection" "1; mode=block" response /\
       has_header "Strict-Transport-Security" "max-age=31536000; includeSubDomains" response) /\
  (forall (request : Request) (e : exn) (w : World),
     if debug (CONFIG w) then handle_exception request e w = (Raise e, w)
     else
       exists (response : Response) (w' : World),
         handle_exception request e w = (Return response, w') /\
         status response = 500 /\
         data response = Json (JObj [("error", JStr "Internal Server Error")]) /\
         has_header "X-Content-Type-Options" "nosniff" response /\
         has_header "X-Frame-Options" "DENY" response /\
         has_header "X-XSS-Protection" "1; mode=block" response /\
         has_header "Strict-Transport-Security" "max-age=31536000; includeSubDomains"
           response /\
         trace w' = (trace w ++
           [Log ERROR ("Exception on " ++ path request ++ " ["
                       ++ method_name (method request) ++ "]")%string;
            Log ERROR ("Internal server error: "
                       ++ str_of_exn InternalServerError)%string])%list).
Proof.
  split.
  - intros request w.
    destruct (wsgi_app_returns request w) as (r & w' & E).
    exists (add_security_headers r), w'. split; [exact E|].
    apply add_security_headers_carries.
  - intros request e w.
    destruct (debug (CONFIG w)) eqn:Hdebug.
    + unfold handle_exception, mbind, M_bind, gets. rewrite Hdebug. reflexivity.
    + eexists _, _. split.
      * unfold handle_exception, mbind, M_bind, gets. rewrite Hdebug. reflexivity.
      * split; [reflexivity|]. split; [reflexivity|].
        pose proof (add_security_headers_carries
                      (make_response
                         (RvStatus (jsonify (JObj [("error", JStr "Internal Server Error")]))
                            500))) as (H1 & H2 & H3 & H4).
        split; [exact H1|]. split; [exact H2|]. split; [exact H3|]. split; [exact H4|].
        cbn. rewrite <- app_assoc. reflexivity.
Qed.


(** C10: the request cycle and each handler on its own (the five views, the
    404 and the 500 handler) leave [CONFIG], [start_time] and
    [is_shutting_down] as they found them; an event that changes
    [is_shutting_down] is a SIGTERM or SIGINT handled by
    [graceful_shutdown]. *)
Theorem handlers_write_no_global :
  (forall request : Request, framed (wsgi_app request)) /\
  framed index /\ framed health /\ framed ready /\ framed metrics /\ framed info /\
  (forall (request : Request) (error : exn), framed (not_found request error)) /\
  (forall error : exn, framed (internal_error error)) /\
  (forall (ev : event) (w : World),
     is_shutting_down (snd (handle_event ev w)) <> is_shutting_down w ->
     exists signum : Z,
       ev = Signal signum /\ (signum = SIGTERM \/ signum = SIGINT) /\
       handle_event ev w = graceful_shutdown signum w).
Proof.
  split; [exact framed_wsgi_app|].
  split; [exact framed_index|].
  split; [exact framed_health|].
  split; [exact framed_ready|].
  split; [exact framed_metrics|].
  split; [exact framed_info|].
  split; [exact framed_not_found|].
  split; [exact framed_internal_error|].
  intros ev w Hchange.
  destruct ev as [request | signum].
  - exfalso. apply Hchange.
    destruct (handle_event_incoming request w) as (w' & -> & ->). cbn [snd].
    destruct (framed_serve_request request w) as (G & _). unfold globals in G. congruence.
  - exists signum. cbn [handle_event] in *.
    destruct (deliver_signal_cases signum) as [[Hs E] | (H1 & H2 & _)].
    + rewrite E. auto.
    + exfalso. apply Hchange. rewrite deliver_signal_unhandled by assumption. reflexivity.
Qed.

(** C6: once the shutdown flag is set it stays set in every world that
    follows, whatever requests and signals are handled; there a GET of / or
    of /ready is answered with 503 and a GET of /health, /metrics or /info
    with 200. *)
Theorem draining_persists (w0 w : World) (request : Request) :
  is_shutting_down w0 = true -> follows w0 w -> method request = GET ->
  is_shutting_down w = true /\
  exists (response : Response) (w' : World),
    wsgi_app request w = (Return response, w') /\
    is_shutting_down w' = true /\
    (path request = "/" \/ path request = "/ready" -> status response = 503) /\
    (path request = "/health" \/ path request = "/metrics" \/ path request = "/info" ->
     status response = 200).
Proof.
  intros Hset Hfollows Hm.
  destruct (follows_stable _ _ Hfollows) as (_ & _ & _ & Hflag & _).
  specialize (Hflag Hset). split; [exact Hflag|].
  destruct (wsgi_app_returns request w) as (r & w' & E).
  exists (add_security_headers r), w'. split; [exact E|]. split.
  - destruct (framed_wsgi_app request w) as (G & _). rewrite E in G.
    unfold globals in G. cbn [snd] in G. congruence.
  - assert (Hsame : forall r1 w1, wsgi_app request w = (Return r1, w1) ->
                                  status (add_security_headers r) = status r1)
      by (intros r1 w1 E1; rewrite E1 in E; congruence).
    split.
    + intros [Hp | Hp].
      * erewrite Hsame by
          (eapply wsgi_app_view with (view := index);
             [rewrite Hp; reflexivity | auto | apply index_draining, Hflag]).
        reflexivity.
      * erewrite Hsame by
          (eapply wsgi_app_view with (view := ready);
             [rewrite Hp; reflexivity | auto | apply ready_eq]).
        cbn. rewrite Hflag. reflexivity.
    + intros [Hp | [Hp | Hp]].
      * erewrite Hsame by
          (eapply wsgi_app_view with (view := health);
             [rewrite Hp; reflexivity | auto | apply health_eq]).
        reflexivity.
      * erewrite Hsame by
          (eapply wsgi_app_view with (view := metrics);
             [rewrite Hp; reflexivity | auto | apply metrics_eq]).
        reflexivity.
      * destruct (info_returns (logged request w)) as (j & Hinfo).
        erewrite Hsame by
          (eapply wsgi_app_view with (view := info);
             [rewrite Hp; reflexivity | auto | apply Hinfo]).
        reflexivity.
Qed.

Lemma health_answer (request : Request) (w : World) :
  method request = GET -> path request = "/health" ->
  wsgi_app request w =
  (Return (add_security_headers (jsonify (JObj [
     ("status", JStr "healthy");
     ("uptime", JFloat (total_seconds (wall_clock (queries w) - start_time w)));
     ("timestamp", JStr (isoformat (wall_clock (S (queries w)))))]))),
   tick (tick (logged request w))).
Proof.
  intros Hm Hp.
  assert (Hroute : assoc (path request) url_map = Some health)
    by (rewrite Hp; reflexivity).
  rewrite (wsgi_app_view request health w _ _ Hroute (or_introl Hm) (health_eq _)).
  reflexivity.
Qed.

(** C5, as the code has it: a GET of /health is answered with 200, status
    "healthy" and an uptime equal to the clock reading taken by the request
    minus [start_time], the reading taken when the module was loaded.  When
    the wall clock never steps back the uptime is not negative and does not
    decrease from one call to a later one; when the clock advances between
    readings it increases. *)
Theorem health_reports_uptime
    (environment : gmap string string) (w0 w : World) (request : Request) :
  import_module environment = Return w0 -> follows w0 w ->
  method request = GET -> path request = "/health" ->
  exists (response : Response) (w' : World) (uptime : Q),
    wsgi_app request w = (Return response, w') /\
    status response = 200 /\
    has_header "Content-Type" "application/json" response /\
    json_field "status" response = Some (JStr "healthy") /\
    uptime_of response = Some uptime /\
    uptime = total_seconds (wall_clock (queries w) - start_time w) /\
    start_time w = wall_clock 0 /\
    (clock_never_steps_back ->
       (0 <= uptime)%Q /\
       forall (w2 : World) (request2 : Request),
         follows w' w2 -> method request2 = GET -> path request2 = "/health" ->
         exists (response2 : Response) (w2' : World) (uptime2 : Q),
           wsgi_app request2 w2 = (Return response2, w2') /\
           uptime_of response2 = Some uptime2 /\ (uptime <= uptime2)%Q) /\
    (clock_advances ->
       forall (w2 : World) (request2 : Request),
         follows w' w2 -> method request2 = GET -> path request2 = "/health" ->
         exists (response2 : Response) (w2' : World) (uptime2 : Q),
           wsgi_app request2 w2 = (Return response2, w2') /\
           uptime_of response2 = Some uptime2 /\ (uptime < uptime2)%Q).
Proof.
  intros Himport Hfollows Hm Hp.
  destruct (import_module_world _ _ Himport) as (_ & Hstart0 & _ & _ & Hq0 & _).
  destruct (follows_stable _ _ Hfollows) as (_ & Hstart & _ & _ & Hq).
  eexists _, _, _. split; [apply health_answer; assumption|].
  split; [reflexivity|].
  split; [unfold has_header; rewrite add_security_headers_content_type; reflexivity|].
  split; [reflexivity|]. split; [reflexivity|]. split; [reflexivity|].
  split; [congruence|].
  assert (Hlater : forall w2, follows (tick (tick (logged request w))) w2 ->
                     start_time w2 = start_time w /\ (queries w < queries w2)%nat).
  { intros w2 H2. destruct (follows_stable _ _ H2) as (_ & S2 & _ & _ & Q2).
    cbn in S2, Q2. split; [exact S2 | lia]. }
  split.
  - intros Hclock. split.
    + apply total_seconds_nonneg. rewrite Hstart, Hstart0.
      pose proof (Hclock 0%nat (queries w)). lia.
    + intros w2 request2 H2 Hm2 Hp2. destruct (Hlater w2 H2) as (S2 & Q2).
      eexists _, _, _. split; [apply health_answer; assumption|].
      split; [reflexivity|].
      apply total_seconds_le. rewrite S2.
      pose proof (Hclock (queries w) (queries w2)). lia.
  - intros Hclock w2 request2 H2 Hm2 Hp2. destruct (Hlater w2 H2) as (S2 & Q2).
    eexists _, _, _. split; [apply health_answer; assumption|].
    split; [reflexivity|].
    apply total_seconds_lt. rewrite S2.
    pose proof (Hclock (queries w) (queries w2)). lia.
Qed.

(** C7, as the code has it: a GET of /metrics is answered with 200 and
    Content-Type text/plain; charset=utf-8, and the sample lines of the body
    are the six documented ones, in order, printing two floats and four
    integers: the memory sizes are not negative and the descriptor and thread
    counts are at least 1; the uptime is the clock reading of the request
    minus [start_time], not negative when that reading is not behind
    [start_time]. *)
Theorem metrics_exposition (request : Request) (w : World) :
  floats_print_on_one_line ->
  method request = GET -> path request = "/metrics" ->
  exists (response : Response) (w' : World) (text : string)
         (uptime cpu : Q) (rss vms fds threads : Z),
    wsgi_app request w = (Return response, w') /\
    status response = 200 /\
    has_header "Content-Type" "text/plain; charset=utf-8" response /\
    data response = Text text /\
    samples text =
      [ "process_uptime_seconds " ++ float_repr uptime;
        "process_cpu_percent " ++ float_repr cpu;
        "process_memory_bytes{type=" ++ quoted "rss" ++ "} " ++ str_of_int rss;
        "process_memory_bytes{type=" ++ quoted "vms" ++ "} " ++ str_of_int vms;
        "process_open_fds " ++ str_of_int fds;
        "process_threads " ++ str_of_int threads ] /\
    uptime = total_seconds (wall_clock (queries w) - start_time w) /\
    (start_time w <= wall_clock (queries w) -> (0 <= uptime)%Q) /\
    0 <= rss /\ 0 <= vms /\ 1 <= fds /\ 1 <= threads.
Proof.
  intros Hfloat Hm Hp.
  eexists _, _, _, _, _, _, _, _, _. split.
  - eapply wsgi_app_view with (view := metrics);
      [rewrite Hp; reflexivity | auto | apply metrics_eq].
  - split; [reflexivity|].
    split; [unfold has_header; rewrite add_security_headers_content_type; reflexivity|].
    split; [reflexivity|].
    split; [apply metrics_samples, Hfloat|].
    split; [reflexivity|].
    split; [intros Hle; apply total_seconds_nonneg; cbn; lia|].
    repeat split; lia.
Qed.

Lemma int_of_str_of_int (n : Z) :
  digits_allowed (count_digits (str_of_int n)) = true ->
  int_of_str (str_of_int n) = Some n.
Proof.
  intros Hd. unfold int_of_str. rewrite is_ascii_of_int, Hd. apply int_literal_of_int.
Qed.

(** C9: the configuration is a function of the process environment at
    start-up.  The port is 8080 without PORT; with PORT set it is the
    integer [int] reads, which for the decimal form of [n] (within the
    interpreter's limit on digits) is [n], and the load fails with a
    ValueError when [int] rejects the text.  The host is HOST or "0.0.0.0",
    the environment name FLASK_ENV or "production", and the debug flag is
    false without DEBUG and true exactly when DEBUG spells "true" in any mix
    of cases.  In every world that follows the load, and at the end of every
    run of the [__main__] block, [CONFIG] is still that configuration. *)
Theorem config_is_read_once_with_defaults (environment : gmap string string) :
  (environment !! "PORT" = None ->
     exists cfg, load_config environment = Return cfg /\ port cfg = 8080) /\
  (forall n : Z,
     digits_allowed (count_digits (str_of_int n)) = true ->
     environment !! "PORT" = Some (str_of_int n) ->
     exists cfg, load_config environment = Return cfg /\ port cfg = n) /\
  (forall s : string,
     environment !! "PORT" = Some s ->
     match int_of_str s with
     | Some n => exists cfg, load_config environment = Return cfg /\ port cfg = n
     | None => load_config environment = Raise (ValueError (int_error s))
     end) /\
  (forall cfg : Config,
     load_config environment = Return cfg ->
     host cfg = default "0.0.0.0" (environment !! "HOST") /\
     env cfg = default "production" (environment !! "FLASK_ENV") /\
     (environment !! "DEBUG" = None -> debug cfg = false) /\
     (debug cfg = true <-> exists v, environment !! "DEBUG" = Some v /\ spells_true v)) /\
  (forall w0 w : World,
     import_module environment = Return w0 -> follows w0 w ->
     load_config environment = Return (CONFIG w)) /\
  (forall (w0 : World) (run : server_run),
     import_module environment = Return w0 ->
     load_config environment = Return (CONFIG (snd (main run w0)))).
Proof.
  split; [|split; [|split; [|split; [|split]]]].
  - intros Hport. unfold load_config. rewrite Hport. eauto.
  - intros n Hd Hport. unfold load_config. rewrite Hport, (int_of_str_of_int n Hd). eauto.
  - intros s Hport. unfold load_config, getenv. rewrite Hport.
    destruct (int_of_str s); eauto.
  - intros cfg. unfold load_config.
    destruct (match environment !! "PORT" with
              | Some s => int_of_str s
              | None => Some 8080
              end) as [p|]; [|discriminate].
    intros [= <-]. cbn [host env debug]. unfold getenv.
    split; [reflexivity|]. split; [reflexivity|]. split.
    + intros ->. reflexivity.
    + rewrite String.eqb_eq, lower_spells_true.
      destruct (environment !! "DEBUG") as [v|]; cbn [default].
      * split; [eauto|]. intros (v' & [= <-] & Hv). exact Hv.
      * split.
        -- intros (c1 & c2 & c3 & c4 & [=] & _).
        -- intros (v' & [=] & _).
  - intros w0 w Himport Hfollows.
    destruct (import_module_world _ _ Himport) as (Hcfg & _).
    destruct (follows_stable _ _ Hfollows) as (-> & _). exact Hcfg.
  - intros w0 run Himport.
    destruct (import_module_world _ _ Himport) as (Hcfg & _).
    destruct (main_stable run w0) as (-> & _). exact Hcfg.
Qed.


End Claims.

(** ** The claims at concrete inputs *)

Lemma sample_floats_on_one_line (clock : nat -> Z) :
  @floats_print_on_one_line (sample_platform clock).
Proof.
  intros x. cbn [float_repr sample_platform]. unfold sample_float_repr.
  rewrite contains_char_app, str_of_int_one_line. reflexivity.
Qed.

Lemma steady_clock_advances : @clock_advances steady.
Proof. intros n m Hnm. cbn. lia. Qed.

Lemma steady_clock_never_steps_back : @clock_never_steps_back steady.
Proof. intros n m Hnm. cbn. lia. Qed.

Lemma ready_reports_the_flag_witness :
  method (get_request "/ready") = GET /\ path (get_request "/ready") = "/ready" /\
  exists (response : Response) (w' : World),
    @wsgi_app steady (get_request "/ready") (@fresh steady) = (Return response, w') /\
    json_field "ready" response = Some (JBool true) /\ status response = 200.
Proof.
  split; [reflexivity|]. split; [reflexivity|].
  destruct (@ready_reports_the_flag steady (get_request "/ready") (@fresh steady)
              eq_refl eq_refl) as (response & w' & is_ready & E & Hfield & Hiff & H200 & _).
  assert (Hready : is_ready = true) by (apply Hiff; reflexivity).
  exists response, w'. rewrite Hready in Hfield. auto.
Defined.

Lemma index_greets_or_refuses_witness :
  method (get_request "/") = GET /\ path (get_request "/") = "/" /\
  exists (response : Response) (w' : World),
    @wsgi_app steady (get_request "/") (set_is_shutting_down true (@fresh steady))
      = (Return response, w') /\
    status response = 503 /\
    data response = Json (JObj [("error", JStr "Service shutting down")]).
Proof.
  split; [reflexivity|]. split; [reflexivity|].
  destruct (@index_greets_or_refuses steady (get_request "/")
              (set_is_shutting_down true (@fresh steady)) eq_refl eq_refl)
    as (response & w' & E & _ & Hstatus & Hdata).
  exists response, w'. auto.
Defined.


Lemma draining_persists_witness :
  is_shutting_down (set_is_shutting_down true (@fresh steady)) = true /\
  method (get_request "/ready") = GET /\
  exists (response : Response) (w' : World),
    @wsgi_app steady (get_request "/ready") (set_is_shutting_down true (@fresh steady))
      = (Return response, w') /\
    status response = 503.
Proof.
  split; [reflexivity|]. split; [reflexivity|].
  destruct (@draining_persists steady
              (set_is_shutting_down true (@fresh steady))
              (set_is_shutting_down true (@fresh steady)) (get_request "/ready") eq_refl
              (follows_refl _) eq_refl)
    as (_ & response & w' & E & _ & H503 & _).
  exists response, w'. split; [exact E|]. apply H503. right. reflexivity.
Defined.

Lemma health_reports_uptime_witness :
  @import_module steady ∅ = Return (@fresh steady) /\
  method (get_request "/health") = GET /\ path (get_request "/health") = "/health" /\
  exists (response : Response) (w' : World),
    @wsgi_app steady (get_request "/health") (@fresh steady) = (Return response, w') /\
    status response = 200 /\
    uptime_of response = Some (total_seconds 250000) /\
    (0 <= total_seconds 250000)%Q.
Proof.
  assert (Himport : @import_module steady ∅ = Return (@fresh steady)) by reflexivity.
  split; [exact Himport|]. split; [reflexivity|]. split; [reflexivity|].
  destruct (@health_reports_uptime steady ∅ (@fresh steady) (@fresh steady)
              (get_request "/health") Himport (follows_refl _) eq_refl eq_refl)
    as (response & w' & uptime & E & Hstatus & _ & _ & Hup & Hval & _ & Hmono & _).
  exists response, w'. rewrite Hval in Hup, Hmono.
  split; [exact E|]. split; [exact Hstatus|]. split; [exact Hup|].
  apply Hmono, steady_clock_never_steps_back.
Defined.

Lemma metrics_exposition_witness :
  @floats_print_on_one_line steady /\
  method (get_request "/metrics") = GET /\ path (get_request "/metrics") = "/metrics" /\
  exists (response : Response) (w' : World) (text : string),
    @wsgi_app steady (get_request "/metrics") (@fresh steady) = (Return response, w') /\
    status response = 200 /\ data response = Text text /\
    length (samples text) = 6%nat.
Proof.
  split; [apply sample_floats_on_one_line|]. split; [reflexivity|]. split; [reflexivity|].
  destruct (@metrics_exposition steady (get_request "/metrics") (@fresh steady)
              (sample_floats_on_one_line _) eq_refl eq_refl)
    as (response & w' & text & u & c & rss & vms & fds & thr
        & E & Hstatus & _ & Hdata & Hsamples & _).
  exists response, w', text. rewrite Hsamples. auto.
Defined.


Lemma config_is_read_once_with_defaults_witness :
  @digits_allowed steady (count_digits (str_of_int 9090)) = true /\
  ({[ "PORT" := "9090"; "DEBUG" := "True" ]} : gmap string string) !! "PORT"
    = Some (str_of_int 9090) /\
  exists cfg : Config,
    @load_config steady {[ "PORT" := "9090"; "DEBUG" := "True" ]} = Return cfg /\
    port cfg = 9090 /\ host cfg = "0.0.0.0" /\ env cfg = "production" /\ debug cfg = true.
Proof.
  assert (Hd : @digits_allowed steady (count_digits (str_of_int 9090)) = true) by reflexivity.
  assert (Hport : ({[ "PORT" := "9090"; "DEBUG" := "True" ]} : gmap string string) !! "PORT"
                  = Some (str_of_int 9090)) by reflexivity.
  split; [exact Hd|]. split; [exact Hport|].
  destruct (@config_is_read_once_with_defaults steady {[ "PORT" := "9090"; "DEBUG" := "True" ]})
    as (_ & Hn & _ & Hrest & _).
  destruct (Hn 9090 Hd Hport) as (cfg & Hload & Hp).
  destruct (Hrest cfg Hload) as (Hhost & Henv & _ & Hdebug).
  exists cfg. split; [exact Hload|]. split; [exact Hp|].
  split; [exact Hhost|]. split; [exact Henv|].
  apply Hdebug. exists "True". split; [reflexivity|].
  exists "T"%char, "r"%char, "u"%char, "e"%char. tauto.
Defined.


(** Debug mode refutes C4 as stated: with DEBUG=true an exception that
    reaches Flask is raised again, the 500 handler is not called, and the
    page the server's debugger sends with status 500 carries none of the
    four headers with its documented value. *)
Lemma the_debugger_page_lacks_the_security_headers :
  let w := {| CONFIG := {| port := 8080; host := "0.0.0.0"; env := "production";
                           debug := true |};
              start_time := @wall_clock steady 0; is_shutting_down := false;
              environ := {[ "DEBUG" := "true" ]}; queries := 1; trace := [] |} in
  let e := RuntimeError "process no longer exists" in
  @import_module steady {[ "DEBUG" := "true" ]} = Return w /\
  handle_exception (get_request "/metrics") e w = (Raise e, w) /\
  @server_on_escape steady e w = (Return (@debugger_page steady), w) /\
  status (@debugger_page steady) = 500 /\
  ~ has_header "X-Content-Type-Options" "nosniff" (@debugger_page steady) /\
  ~ has_header "X-Frame-Options" "DENY" (@debugger_page steady) /\
  ~ has_header "X-XSS-Protection" "1; mode=block" (@debugger_page steady) /\
  ~ has_header "Strict-Transport-Security" "max-age=31536000; includeSubDomains"
      (@debugger_page steady).
Proof.
  cbn zeta. split; [reflexivity|]. split; [reflexivity|]. split; [reflexivity|].
  split; [reflexivity|]. unfold has_header. repeat split; discriminate.
Qed.


(** The clock of [set_back] refutes C5 as stated: the process loads, and the
    first GET of /health reports an uptime below zero. *)
Lemma health_uptime_is_negative_after_a_set_back :
  @import_module set_back ∅ = Return (@fresh set_back) /\
  exists (response : Response) (w' : World),
    @wsgi_app set_back (get_request "/health") (@fresh set_back) = (Return response, w') /\
    status response = 200 /\
    uptime_of response = Some (total_seconds (-3599750000)) /\
    (total_seconds (-3599750000) < 0)%Q.
Proof.
  split; [reflexivity|]. eexists _, _.
  split; [reflexivity|]. split; [reflexivity|]. split; reflexivity.
Qed.

(** The clock of [set_back] refutes C7 as stated: the uptime sample of the
    first GET of /metrics is below zero. *)
Lemma metrics_uptime_is_negative_after_a_set_back :
  exists (response : Response) (w' : World),
    @wsgi_app set_back (get_request "/metrics") (@fresh set_back) = (Return response, w') /\
    status response = 200 /\
    data response =
      Text (@metrics_text set_back (total_seconds (-3599750000)) (3 # 2)
              41943040 262144000 7 2) /\
    (total_seconds (-3599750000) < 0)%Q /\
    match data response with
    | Text text => head (samples text) = Some "process_uptime_seconds -3599750000e-06"
    | _ => False
    end.
Proof.
  eexists _, _. split; [reflexivity|]. split; [reflexivity|].
  split; [reflexivity|]. split; reflexivity.
Qed.

(** ** Examples *)

Example config_of_port_9090 :
  @load_config steady {[ "PORT" := "9090" ]}
  = Return {| port := 9090; host := "0.0.0.0"; env := "production"; debug := false |}.
Proof. reflexivity. Qed.

Example config_of_debug_mixed_case :
  @load_config steady {[ "DEBUG" := "TrUe" ]}
  = Return {| port := 8080; host := "0.0.0.0"; env := "production"; debug := true |}.
Proof. reflexivity. Qed.

Example config_of_bad_port :
  @load_config steady {[ "PORT" := "http" ]}
  = Raise (ValueError "invalid literal for int() with base 10: 'http'").
Proof. reflexivity. Qed.

(** Blanks around the literal are those of C: the separator 0x1c is none. *)
Example int_of_str_examples :
  @int_of_str steady "  -1_000 " = Some (-1000) /\ @int_of_str steady "80a" = None /\
  @int_of_str steady "1__0" = None /\ @int_of_str steady EmptyString = None /\
  @int_of_str steady (String "028" "80") = None /\
  @int_of_str steady (String "009" "+80 ") = Some 80.
Proof. repeat split; reflexivity. Qed.

(** A text of 4301 digits is beyond the limit of 4300. *)
Example int_of_str_digit_limit :
  let nines := fun n => String.concat EmptyString (repeat "9" n) in
  @int_of_str steady (nines 4301%nat) = None /\
  @int_of_str steady (nines 4300%nat) <> None.
Proof. cbn zeta. split; [vm_compute; reflexivity | vm_compute; discriminate]. Qed.

Example str_of_int_examples :
  str_of_int 15 = "15" /\ str_of_int (-7) = "-7" /\ str_of_int 0 = "0".
Proof. repeat split; reflexivity. Qed.

Example lines_example :
  lines (String "a" (String newline (String newline "bc"))) = ["a"; ""; "bc"].
Proof. reflexivity. Qed.

Example a_process_run :
  let outcome :=
    @main steady (Serves [Incoming (get_request "/ready"); Signal SIGTERM]) (@fresh steady) in
  exit_status (fst outcome) = Some 0 /\
  trace (snd outcome) =
    [Log INFO "Starting application on 0.0.0.0:8080";
     Log INFO "Environment: production";
     Log INFO "Debug mode: False";
     Log INFO " * Running on http://0.0.0.0:8080";
     Log INFO "Press CTRL+C to quit";
     Log INFO "Request: GET /ready from 10.0.0.7";
     Log INFO ("10.0.0.7 - - [27/Oct/2024 02:30:00] " ++ quoted "GET /ready HTTP/1.1"
               ++ " 200 -");
     Log INFO "Received signal 15, starting graceful shutdown...";
     Log INFO "Waiting for in-flight requests to complete...";
     Sleep 2;
     Log INFO "Shutdown complete"].
Proof. split; reflexivity. Qed.

(** A request in flight is answered during the sleep, with the flag set,
    and a second signal starts the handler again. *)
Example a_signal_during_the_sleep :
  let outcome :=
    @serve_forever steady
      [Signal SIGTERM; Incoming (get_request "/"); Signal SIGINT] (@fresh steady) in
  fst outcome = Raise (SystemExit 0) /\
  trace (snd outcome) =
    [Log INFO "Received signal 15, starting graceful shutdown...";
     Log INFO "Waiting for in-flight requests to complete...";
     Sleep 2;
     Log INFO "Request: GET / from 10.0.0.7";
     Log INFO ("10.0.0.7 - - [27/Oct/2024 02:30:00] " ++ quoted "GET / HTTP/1.1"
               ++ " 503 -");
     Log INFO "Received signal 2, starting graceful shutdown...";
     Log INFO "Waiting for in-flight requests to complete...";
     Sleep 2;
     Log INFO "Shutdown complete"].
Proof. split; reflexivity. Qed.

(** A signal without a handler ends the process without an exit status. *)
Example a_signal_without_a_handler :
  let outcome := @main steady (Serves [Signal 10]) (@fresh steady) in
  fst outcome = Raise (Killed 10) /\ exit_status (fst outcome) = None.
Proof. split; reflexivity. Qed.

Example method_not_allowed :
  status <$> (match @wsgi_app steady {| method := OtherMethod "POST"; path := "/";
                                        remote_addr := "10.0.0.7" |} (@fresh steady)
              with (Return r, _) => Some r | _ => None end) = Some 405.
Proof. reflexivity. Qed.

(** * Further properties of app.py *)

Section RequestCycle.
Context `{Platform}.

Lemma route_of_view (p : string) (view : M view_rv) :
  assoc p url_map = Some view ->
  p = "/" /\ view = index \/ p = "/health" /\ view = health \/
  p = "/ready" /\ view = ready \/ p = "/metrics" /\ view = metrics \/
  p = "/info" /\ view = info.
Proof.
  unfold url_map. cbn [assoc].
  repeat match goal with
         | |- context [String.eqb p ?s] =>
             destruct (String.eqb_spec p s) as [-> | _]; [intros [= <-]; tauto|]
         end.
  discriminate.
Qed.

(** X1: Every request, whatever its method and path, is answered, and the cycle
    leaves exactly one line in the log, the one of [log_request]; it makes at
    most five queries of the operating system. *)
Theorem one_log_line_per_request (request : Request) (w : World) :
  exists (response : Response) (w' : World),
    wsgi_app request w = (Return response, w') /\
    trace w' = (trace w ++ [request_line request])%list /\
    (queries w <= queries w' <= queries w + 5)%nat.
Proof. exact (wsgi_app_trace request w). Qed.


(** X3: The shutdown flag is read by / and /ready only: for every other path,
    registered or not, and every method, the response is the same whether
    the flag is set or not. *)
Theorem flag_matters_only_to_index_and_ready (request : Request) (w : World) (b : bool) :
  path request <> "/" -> path request <> "/ready" ->
  fst (wsgi_app request (set_is_shutting_down b w)) = fst (wsgi_app request w).
Proof.
  intros Hindex Hready.
  destruct (assoc (path request) url_map) as [view|] eqn:Hroute.
  - assert (Hview : exists rv w1 w2,
              view (logged request (set_is_shutting_down b w)) = (Return rv, w1) /\
              view (logged request w) = (Return rv, w2)).
    { apply route_of_view in Hroute
        as [[Hp _] | [[_ ->] | [[Hp _] | [[_ ->] | [_ ->]]]]]; try contradiction.
      - rewrite !health_eq. eexists _, _, _. split; reflexivity.
      - rewrite !metrics_eq. eexists _, _, _. split; reflexivity.
      - eexists _, _, _. split; reflexivity. }
    destruct Hview as (rv & w1 & w2 & E1 & E2).
    destruct (method request) eqn:Hm.
    + erewrite !wsgi_app_view by eauto. reflexivity.
    + erewrite !wsgi_app_view by eauto. reflexivity.
    + unfold wsgi_app, full_dispatch_request, try_except, mbind, M_bind, dispatch_request.
      rewrite Hroute, Hm. reflexivity.
    + unfold wsgi_app, full_dispatch_request, try_except, mbind, M_bind, dispatch_request.
      rewrite Hroute, Hm. reflexivity.
  - destruct (under_static (path request)) eqn:Hstatic.
    + rewrite !wsgi_app_static by assumption. reflexivity.
    + rewrite !wsgi_app_unmatched by assumption. reflexivity.
Qed.

(** X4: Every answer to a GET outside /static/ is a JSON document sent as
    application/json, except the one of /metrics, which is a text sent as
    text/plain; charset=utf-8. *)
Theorem get_answers_are_json_except_metrics (request : Request) (w : World) :
  method request = GET -> under_static (path request) = false ->
  exists (response : Response) (w' : World),
    wsgi_app request w = (Return response, w') /\
    if String.eqb (path request) "/metrics" then
      has_header "Content-Type" "text/plain; charset=utf-8" response /\
      exists text, data response = Text text
    else
      has_header "Content-Type" "application/json" response /\
      exists j, data response = Json j.
Proof.
  intros Hm Hstatic.
  destruct (assoc (path request) url_map) as [view|] eqn:Hroute.
  - apply route_of_view in Hroute as Hcase.
    destruct Hcase as [[Hp ->] | [[Hp ->] | [[Hp ->] | [[Hp ->] | [Hp ->]]]]];
      rewrite Hp in *; cbn [String.eqb Ascii.eqb Bool.eqb].
    + destruct (is_shutting_down w) eqn:Hflag.
      * eexists _, _. split.
        { eapply wsgi_app_view; [rewrite Hp; reflexivity | auto | apply index_draining, Hflag]. }
        unfold has_header. rewrite add_security_headers_content_type. cbn. eauto.
      * eexists _, _. split.
        { eapply wsgi_app_view; [rewrite Hp; reflexivity | auto | apply index_serving, Hflag]. }
        unfold has_header. rewrite add_security_headers_content_type. cbn. eauto.
    + eexists _, _. split.
      { eapply wsgi_app_view; [rewrite Hp; reflexivity | auto | apply health_eq]. }
      unfold has_header. rewrite add_security_headers_content_type. cbn. eauto.
    + eexists _, _. split.
      { eapply wsgi_app_view; [rewrite Hp; reflexivity | auto | apply ready_eq]. }
      unfold has_header. rewrite add_security_headers_content_type. cbn. eauto.
    + eexists _, _. split.
      { eapply wsgi_app_view; [rewrite Hp; reflexivity | auto | apply metrics_eq]. }
      unfold has_header. rewrite add_security_headers_content_type. cbn. eauto.
    + destruct (info_returns (logged request w)) as (j & Hinfo).
      eexists _, _. split.
      { eapply wsgi_app_view; [rewrite Hp; reflexivity | auto | apply Hinfo]. }
      unfold has_header. rewrite add_security_headers_content_type. cbn. eauto.
  - assert (Hne : String.eqb (path request) "/metrics" = false).
    { apply String.eqb_neq. intros Hp. rewrite Hp in Hroute. discriminate. }
    rewrite Hne. eexists _, _. split; [apply wsgi_app_unmatched; assumption|].
    unfold has_header. rewrite add_security_headers_content_type. cbn. eauto.
Qed.

(** X5: A GET of /info is answered with 200 and a JSON document of three
    objects.  The user is USER of the process environment, or "unknown"
    without it; the number of CPUs is null when it cannot be determined; the
    total and the available memory come from two successive queries. *)
Theorem info_describes_the_process (request : Request) (w : World) :
  method request = GET -> path request = "/info" ->
  exists (response : Response) (w' : World) (j : json),
    wsgi_app request w = (Return response, w') /\
    status response = 200 /\ data response = Json j /\
    json_path ["python"; "version"] j = Some (JStr sys_version) /\
    json_path ["python"; "executable"] j = Some (JStr sys_executable) /\
    json_path ["python"; "platform"] j = Some (JStr sys_platform) /\
    json_path ["process"; "pid"] j = Some (JInt os_getpid) /\
    json_path ["process"; "user"] j
      = Some (JStr (default "unknown" (environ w !! "USER"))) /\
    json_path ["process"; "cwd"] j = Some (JStr (os_getcwd (queries w))) /\
    json_path ["system"; "cpu_count"] j
      = Some (match cpu_count (1 + queries w) with
              | Some n => JInt n
              | None => JNull
              end) /\
    json_path ["system"; "memory_total"] j
      = Some (JInt (Z.of_N (fst (virtual_memory (2 + queries w))))) /\
    json_path ["system"; "memory_available"] j
      = Some (JInt (Z.of_N (snd (virtual_memory (3 + queries w))))).
Proof.
  intros Hm Hp.
  eexists _, _, _. split.
  - eapply wsgi_app_view with (view := info);
      [rewrite Hp; reflexivity | auto | reflexivity].
  - split; [reflexivity|]. split; [reflexivity|].
    cbn. destruct (cpu_count (S (queries w))); auto 12.
Qed.

(** X6: [add_security_headers] touches nothing but its four headers: the status,
    the body and the values carried for every other header name are those of
    the response it was given. *)
Theorem add_security_headers_keeps_the_rest (response : Response) (name : string) :
  Forall (fun k => Headers.same_key name k = false) security_header_names ->
  status (add_security_headers response) = status response /\
  data (add_security_headers response) = data response /\
  Headers.getlist name (headers (add_security_headers response))
    = Headers.getlist name (headers response).
Proof.
  intros Hname. split; [reflexivity|]. split; [reflexivity|].
  unfold security_header_names in Hname.
  repeat match goal with
         | Hf : Forall _ (_ :: _) |- _ => apply Forall_cons in Hf as [? Hf]
         end.
  unfold add_security_headers, set_header, with_headers. cbn [headers].
  rewrite !getlist_set_other by assumption. reflexivity.
Qed.

End RequestCycle.

(** ** Setting a header twice *)

Lemma remove_length k hs : (length (Headers.remove k hs) <= length hs)%nat.
Proof.
  induction hs as [|[k' v'] hs IH]; cbn [Headers.remove length]; [lia|].
  destruct (Headers.same_key k k'); cbn [length]; lia.
Qed.

Lemma remove_remove k j hs :
  Headers.remove k (Headers.remove j hs) = Headers.remove j (Headers.remove k hs).
Proof.
  induction hs as [|[k' v'] hs IH]; cbn [Headers.remove]; [reflexivity|].
  destruct (Headers.same_key j k') eqn:Ej, (Headers.same_key k k') eqn:Ek;
    cbn [Headers.remove]; rewrite ?Ej, ?Ek, ?IH; reflexivity.
Qed.

Lemma remove_idem k hs : Headers.remove k (Headers.remove k hs) = Headers.remove k hs.
Proof.
  induction hs as [|[k' v'] hs IH]; cbn [Headers.remove]; [reflexivity|].
  destruct (Headers.same_key k k') eqn:Ek; cbn [Headers.remove]; rewrite ?Ek, ?IH; reflexivity.
Qed.

Lemma same_key_sym j k : Headers.same_key j k = Headers.same_key k j.
Proof. apply String.eqb_sym. Qed.

Lemma remove_fixed_cons k k' v' hs :
  Headers.remove k ((k', v') :: hs) = (k', v') :: hs ->
  Headers.same_key k k' = false /\ Headers.remove k hs = hs.
Proof.
  cbn [Headers.remove]. destruct (Headers.same_key k k') eqn:Ek.
  - intros E. pose proof (remove_length k hs) as Hlen.
    rewrite E in Hlen. cbn [length] in Hlen. lia.
  - intros [= E]. auto.
Qed.

Lemma remove_set_other k j w hs :
  Headers.same_key k j = false ->
  Headers.remove k hs = hs ->
  Headers.remove k (Headers.set j w hs) = Headers.set j w hs.
Proof.
  intros Hkj. induction hs as [|[k' v'] hs IH]; intros Hfix.
  - cbn [Headers.set Headers.remove]. rewrite Hkj. reflexivity.
  - apply remove_fixed_cons in Hfix as [Hk Hfix].
    cbn [Headers.set]. destruct (Headers.same_key j k') eqn:Ej; cbn [Headers.remove].
    + rewrite Hkj, remove_remove, Hfix. reflexivity.
    + rewrite Hk, (IH Hfix). reflexivity.
Qed.

Lemma set_remove_other k v j hs :
  Headers.same_key k j = false ->
  Headers.set k v (Headers.remove j hs) = Headers.remove j (Headers.set k v hs).
Proof.
  intros Hkj. assert (Hjk : Headers.same_key j k = false) by (rewrite same_key_sym; exact Hkj).
  induction hs as [|[k' v'] hs IH]; cbn [Headers.set Headers.remove].
  - rewrite Hjk. reflexivity.
  - destruct (Headers.same_key j k') eqn:Ej, (Headers.same_key k k') eqn:Ek;
      cbn [Headers.set Headers.remove]; rewrite ?Ej, ?Ek, ?Hjk.
    + exfalso. rewrite same_key_sym in Ej.
      rewrite (same_key_trans_false k j k') in Ek; [discriminate | exact Hkj |].
      rewrite same_key_sym. exact Ej.
    + exact IH.
    + rewrite remove_remove. reflexivity.
    + rewrite IH. reflexivity.
Qed.

Lemma set_set_same k v hs : Headers.set k v (Headers.set k v hs) = Headers.set k v hs.
Proof.
  induction hs as [|[k' v'] hs IH]; cbn [Headers.set].
  - rewrite same_key_refl. reflexivity.
  - destruct (Headers.same_key k k') eqn:Ek; cbn [Headers.set].
    + rewrite same_key_refl, remove_idem. reflexivity.
    + rewrite Ek, IH. reflexivity.
Qed.

Lemma set_fixed_other k v j w hs :
  Headers.same_key k j = false ->
  Headers.set k v hs = hs ->
  Headers.set k v (Headers.set j w hs) = Headers.set j w hs.
Proof.
  intros Hkj. induction hs as [|[k' v'] hs IH]; intros Hfix.
  - discriminate Hfix.
  - cbn [Headers.set] in Hfix. destruct (Headers.same_key k k') eqn:Ek.
    + injection Hfix as Hk Hv Hfix. subst k' v'.
      assert (Ej : Headers.same_key j k = false) by (rewrite same_key_sym; exact Hkj).
      cbn [Headers.set]. rewrite Ej. cbn [Headers.set]. rewrite same_key_refl.
      rewrite (remove_set_other k j w hs Hkj Hfix). reflexivity.
    + injection Hfix as Hfix.
      cbn [Headers.set]. destruct (Headers.same_key j k') eqn:Ej; cbn [Headers.set].
      * rewrite Hkj. rewrite set_remove_other, Hfix by exact Hkj. reflexivity.
      * rewrite Ek, (IH Hfix). reflexivity.
Qed.

Section HookTwice.
Context `{Platform}.

(** X7: Running [add_security_headers] on a response that went through it
    changes nothing. *)
Theorem add_security_headers_idempotent (response : Response) :
  add_security_headers (add_security_headers response) = add_security_headers response.
Proof.
  unfold add_security_headers, set_header, with_headers. cbn [headers status data].
  f_equal.
  set (hs := headers response).
  set (h1 := Headers.set "X-Content-Type-Options" "nosniff" hs).
  set (h2 := Headers.set "X-Frame-Options" "DENY" h1).
  set (h3 := Headers.set "X-XSS-Protection" "1; mode=block" h2).
  set (h4 := Headers.set "Strict-Transport-Security" "max-age=31536000; includeSubDomains" h3).
  assert (H1 : Headers.set "X-Content-Type-Options" "nosniff" h4 = h4)
    by (repeat (apply set_fixed_other; [reflexivity|]); apply set_set_same).
  assert (H2 : Headers.set "X-Frame-Options" "DENY" h4 = h4)
    by (repeat (apply set_fixed_other; [reflexivity|]); apply set_set_same).
  assert (H3 : Headers.set "X-XSS-Protection" "1; mode=block" h4 = h4)
    by (repeat (apply set_fixed_other; [reflexivity|]); apply set_set_same).
  assert (H4 : Headers.set "Strict-Transport-Security"
                 "max-age=31536000; includeSubDomains" h4 = h4)
    by apply set_set_same.
  rewrite H1, H2, H3, H4. reflexivity.
Qed.

End HookTwice.

Section StartUp.
Context `{Platform}.

(** X8: The port is taken as [int] reads it, without a range check: with PORT
    set to the decimal form of an integer, negative or above 65535 included
    (its digits within the interpreter's limit), the module loads with that
    integer as the port, and [__main__] announces it in its first line
    whatever [app.run] then does. *)
Theorem port_is_not_range_checked (environment : gmap string string) (n : Z) :
  digits_allowed (count_digits (str_of_int n)) = true ->
  environment !! "PORT" = Some (str_of_int n) ->
  exists w0 : World,
    import_module environment = Return w0 /\ port (CONFIG w0) = n /\
    forall run : server_run,
      exists rest : list effect,
        trace (snd (main run w0)) =
        Log INFO ("Starting application on " ++ host (CONFIG w0) ++ ":" ++ str_of_int n)
          :: rest.
Proof.
  intros Hd Hport.
  assert (Hload : exists cfg, load_config environment = Return cfg /\ port cfg = n).
  { unfold load_config. rewrite Hport, (int_of_str_of_int n Hd). eauto. }
  destruct Hload as (cfg & Hload & Hp).
  eexists. split; [unfold import_module; rewrite Hload; reflexivity|].
  split; [exact Hp|]. intros run.
  match goal with |- context [main run ?w0] =>
    destruct (main_stable run w0) as (_ & _ & _ & _ & (rest & ->)) end.
  cbn. rewrite Hp. eauto.
Qed.


End StartUp.

Section Serving.
Context `{Platform}.

Lemma is_termination_signal (signum : Z) :
  is_termination (Signal signum) = true <-> signum = SIGTERM \/ signum = SIGINT.
Proof.
  cbn [is_termination]. rewrite orb_true_iff, !Z.eqb_eq. reflexivity.
Qed.

Lemma not_termination_signal (signum : Z) :
  is_termination (Signal signum) = false <-> signum <> SIGTERM /\ signum <> SIGINT.
Proof.
  cbn [is_termination]. rewrite orb_false_iff, !Z.eqb_neq. reflexivity.
Qed.

(** X10: A serving process that sees no signal whose default action ends it
    ends exactly when a SIGTERM or a SIGINT is among the events it sees:
    then it ends by SystemExit(0) with the flag set, whatever arrives during
    the sleep of the handler; otherwise it is still serving, with the flag
    as it was. *)
Theorem serving_ends_exactly_on_a_termination_signal (events : list event) (w : World) :
  existsb fatal events = false ->
  exists w' : World,
    if existsb is_termination events then
      serve_forever events w = (Raise (SystemExit 0), w') /\ is_shutting_down w' = true
    else
      serve_forever events w = (Return tt, w') /\
      is_shutting_down w' = is_shutting_down w.
Proof.
  revert w. induction events as [|ev events IH]; intros w Hfatal.
  - exists w. cbn. auto.
  - cbn [existsb] in Hfatal. apply orb_false_iff in Hfatal as [Hev Hfatal].
    cbn [existsb]. destruct ev as [request | signum].
    + destruct (serve_forever_incoming request events w) as (response & w1 & E & ->).
      destruct (served_world _ _ _ _ E) as (G & _). cbn zeta in G.
      unfold globals in G. injection G as _ _ G3.
      cbn [is_termination orb].
      match goal with |- context [serve_forever events ?w2] =>
        destruct (IH w2 Hfatal) as (w' & Hw') end.
      exists w'. destruct (existsb is_termination events); [exact Hw'|].
      destruct Hw' as [E' F']. split; [exact E'|]. rewrite F'. exact G3.
    + destruct (is_termination (Signal signum)) eqn:Hterm.
      * apply is_termination_signal in Hterm. cbn [orb].
        rewrite (serve_forever_signal _ _ _ Hterm).
        destruct (IH (sleeping signum w) Hfatal) as (w' & Hw').
        destruct (serve_forever_stable events (sleeping signum w)) as (_ & _ & _ & F & _).
        cbn zeta in F. specialize (F eq_refl).
        destruct (existsb is_termination events).
        -- destruct Hw' as [-> F']. exists w'. auto.
        -- destruct Hw' as [E' _]. rewrite E' in *. cbn [snd] in F.
           eexists. split; [reflexivity|]. exact F.
      * cbn [fatal] in Hev. rewrite Hterm in Hev. cbn [negb andb orb] in *.
        apply not_termination_signal in Hterm as [H1 H2].
        rewrite (serve_forever_unhandled _ _ _ H1 H2).
        destruct (default_action signum); [discriminate|].
        apply IH, Hfatal.
Qed.

(** X11: A second SIGTERM or SIGINT during the grace period runs the handler
    again inside the sleep of the first: the process sleeps a second time,
    "Shutdown complete" is logged once, by the second handler, and the
    process still exits with SystemExit(0). *)
Theorem a_second_signal_restarts_the_grace_period (first second : Z) (w : World) :
  first = SIGTERM \/ first = SIGINT -> second = SIGTERM \/ second = SIGINT ->
  exists w' : World,
    serve_forever [Signal first; Signal second] w = (Raise (SystemExit 0), w') /\
    is_shutting_down w' = true /\
    trace w' = (trace w ++ shutdown_begins first ++ shutdown_begins second
                  ++ shutdown_ends)%list.
Proof.
  intros H1 H2.
  rewrite (serve_forever_signal _ _ _ H1), (serve_forever_signal _ _ _ H2).
  cbn [serve_forever mret M_ret].
  eexists. split; [reflexivity|]. split; [reflexivity|].
  cbn. rewrite <- !app_assoc. reflexivity.
Qed.

(** X12: Whatever [app.run] meets, the log of [__main__] starts with its three
    start-up lines.  A SystemExit or a KeyboardInterrupt that escapes
    [app.run] is not an Exception: it is raised again as it is, and nothing
    more is logged. *)
Theorem main_logs_startup_and_passes_exits (w : World) :
  (forall run : server_run,
     exists rest : list effect,
       trace (snd (main run w)) = (trace w ++ startup_lines (CONFIG w) ++ rest)%list) /\
  (forall e : exn,
     is_Exception e = false ->
     exists w' : World,
       main (StartupFails e) w = (Raise e, w') /\
       trace w' = (trace w ++ startup_lines (CONFIG w))%list /\
       globals w' = globals w).
Proof.
  split.
  - intros run. destruct (main_stable run w) as (_ & _ & _ & _ & Hrest). exact Hrest.
  - intros e He. eexists. split; [|split].
    + rewrite main_eq. cbn zeta. cbn [app_run]. unfold raise. rewrite He. reflexivity.
    + reflexivity.
    + reflexivity.
Qed.

(** X13: A signal for which the program installed no handler and whose default
    action is to end the process does so at once, also during the sleep of
    [graceful_shutdown]: the process has no exit status, and what arrives
    after the signal is not seen. *)
Theorem an_unhandled_signal_ends_the_process
    (before after : list event) (signum : Z) (w : World) :
  existsb fatal before = false -> fatal (Signal signum) = true ->
  fst (serve_forever (before ++ Signal signum :: after)%list w) = Raise (Killed signum) /\
  exit_status (fst (serve_forever (before ++ Signal signum :: after)%list w)) = None /\
  serve_forever (before ++ Signal signum :: after)%list w
  = serve_forever (before ++ [Signal signum])%list w.
Proof.
  intros Hbefore Hfatal.
  assert (Hkill : forall rest w0,
            serve_forever (Signal signum :: rest) w0 = (Raise (Killed signum), w0)).
  { intros rest w0. cbn [fatal] in Hfatal. apply andb_prop in Hfatal as [Hterm Hdies].
    apply negb_true_iff, not_termination_signal in Hterm as [H1 H2].
    rewrite (serve_forever_unhandled _ _ _ H1 H2).
    destruct (default_action signum); [reflexivity | discriminate]. }
  assert (Hboth : serve_forever (before ++ Signal signum :: after)%list w
                  = serve_forever (before ++ [Signal signum])%list w /\
                  fst (serve_forever (before ++ [Signal signum])%list w)
                  = Raise (Killed signum)).
  { revert w Hbefore. induction before as [|ev before IH]; intros w Hbefore.
    - cbn [app]. rewrite !Hkill. auto.
    - cbn [existsb] in Hbefore. apply orb_false_iff in Hbefore as [Hev Hbefore].
      cbn [app]. destruct ev as [request | s].
      + destruct (serve_forever_incoming request (before ++ Signal signum :: after)%list w)
          as (r1 & w1 & E1 & ->).
        destruct (serve_forever_incoming request (before ++ [Signal signum])%list w)
          as (r2 & w2 & E2 & ->).
        rewrite E1 in E2. injection E2 as <- <-. apply IH, Hbefore.
      + destruct (signal_cases s) as [Hs | [H1 H2]].
        * rewrite !(serve_forever_signal _ _ _ Hs).
          destruct (IH (sleeping s w) Hbefore) as (-> & Hk).
          destruct (serve_forever (before ++ [Signal signum])%list (sleeping s w))
            as [[[] | e] w']; cbn [fst] in Hk; [discriminate|]. auto.
        * rewrite !(serve_forever_unhandled _ _ _ H1 H2).
          cbn [fatal] in Hev.
          assert (Hterm : is_termination (Signal s) = false)
            by (apply not_termination_signal; auto).
          rewrite Hterm in Hev. cbn [negb andb] in Hev.
          destruct (default_action s); [discriminate|]. apply IH, Hbefore. }
  destruct Hboth as [Hsame Hk]. rewrite Hsame, Hk. auto.
Qed.

End Serving.

(** ** The further properties at concrete inputs *)

Lemma flag_matters_only_to_index_and_ready_witness :
  path (get_request "/health") <> "/" /\ path (get_request "/health") <> "/ready" /\
  fst (@wsgi_app steady (get_request "/health") (set_is_shutting_down true (@fresh steady)))
  = fst (@wsgi_app steady (get_request "/health") (@fresh steady)).
Proof.
  assert (H1 : path (get_request "/health") <> "/") by discriminate.
  assert (H2 : path (get_request "/health") <> "/ready") by discriminate.
  split; [exact H1|]. split; [exact H2|].
  exact (@flag_matters_only_to_index_and_ready steady (get_request "/health")
           (@fresh steady) true H1 H2).
Defined.

Lemma get_answers_are_json_except_metrics_witness :
  method (get_request "/nowhere") = GET /\
  under_static (path (get_request "/nowhere")) = false /\
  exists (response : Response) (w' : World),
    @wsgi_app steady (get_request "/nowhere") (@fresh steady) = (Return response, w') /\
    has_header "Content-Type" "application/json" response.
Proof.
  split; [reflexivity|]. split; [reflexivity|].
  destruct (@get_answers_are_json_except_metrics steady (get_request "/nowhere")
              (@fresh steady) eq_refl eq_refl) as (response & w' & E & Hjson & _).
  exists response, w'. auto.
Defined.

Lemma info_describes_the_process_witness :
  method (get_request "/info") = GET /\ path (get_request "/info") = "/info" /\
  exists (response : Response) (w' : World) (j : json),
    @wsgi_app steady (get_request "/info") (@fresh steady) = (Return response, w') /\
    data response = Json j /\
    json_path ["process"; "user"] j = Some (JStr "unknown") /\
    json_path ["system"; "cpu_count"] j = Some (JInt 4).
Proof.
  split; [reflexivity|]. split; [reflexivity|].
  destruct (@info_describes_the_process steady (get_request "/info") (@fresh steady)
              eq_refl eq_refl)
    as (response & w' & j & E & _ & Hdata & _ & _ & _ & _ & Huser & _ & Hcpu & _).
  exists response, w', j. auto.
Defined.

Lemma add_security_headers_keeps_the_rest_witness :
  Forall (fun k => Headers.same_key "content-type" k = false) security_header_names /\
  Headers.getlist "content-type"
    (headers (@add_security_headers (jsonify JNull))) = ["application/json"].
Proof.
  assert (Hname : Forall (fun k => Headers.same_key "content-type" k = false)
                    security_header_names)
    by (repeat constructor).
  split; [exact Hname|].
  destruct (@add_security_headers_keeps_the_rest (jsonify JNull) "content-type" Hname)
    as (_ & _ & Hkept).
  rewrite Hkept. reflexivity.
Defined.

Lemma port_is_not_range_checked_witness :
  @digits_allowed steady (count_digits (str_of_int (-70000))) = true /\
  ({[ "PORT" := str_of_int (-70000) ]} : gmap string string) !! "PORT"
    = Some (str_of_int (-70000)) /\
  exists w0 : World,
    @import_module steady {[ "PORT" := str_of_int (-70000) ]} = Return w0 /\
    port (CONFIG w0) = -70000.
Proof.
  assert (Hd : @digits_allowed steady (count_digits (str_of_int (-70000))) = true)
    by reflexivity.
  assert (Hport : ({[ "PORT" := str_of_int (-70000) ]} : gmap string string) !! "PORT"
                  = Some (str_of_int (-70000))) by reflexivity.
  split; [exact Hd|]. split; [exact Hport|].
  destruct (@port_is_not_range_checked steady {[ "PORT" := str_of_int (-70000) ]}
              (-70000) Hd Hport) as (w0 & Himport & Hp & _).
  exists w0. auto.
Defined.


Lemma serving_ends_exactly_on_a_termination_signal_witness :
  existsb (@fatal steady) [Incoming (get_request "/"); Signal SIGINT;
                           Incoming (get_request "/")] = false /\
  exists w' : World,
    @serve_forever steady [Incoming (get_request "/"); Signal SIGINT;
                           Incoming (get_request "/")] (@fresh steady)
      = (Raise (SystemExit 0), w') /\
    is_shutting_down w' = true.
Proof.
  split; [reflexivity|].
  exact (@serving_ends_exactly_on_a_termination_signal steady
           [Incoming (get_request "/"); Signal SIGINT; Incoming (get_request "/")]
           (@fresh steady) eq_refl).
Defined.

Lemma a_second_signal_restarts_the_grace_period_witness :
  (SIGTERM = SIGTERM \/ SIGTERM = SIGINT) /\ (SIGINT = SIGTERM \/ SIGINT = SIGINT) /\
  exists w' : World,
    @serve_forever steady [Signal SIGTERM; Signal SIGINT] (@fresh steady)
      = (Raise (SystemExit 0), w') /\
    trace w' =
      [Log INFO "Received signal 15, starting graceful shutdown...";
       Log INFO "Waiting for in-flight requests to complete...";
       Sleep 2;
       Log INFO "Received signal 2, starting graceful shutdown...";
       Log INFO "Waiting for in-flight requests to complete...";
       Sleep 2;
       Log INFO "Shutdown complete"].
Proof.
  split; [left; reflexivity|]. split; [right; reflexivity|].
  destruct (@a_second_signal_restarts_the_grace_period steady SIGTERM SIGINT (@fresh steady)
              (or_introl eq_refl) (or_intror eq_refl)) as (w' & E & _ & Ht).
  exists w'. split; [exact E|]. rewrite Ht. reflexivity.
Defined.

Lemma an_unhandled_signal_ends_the_process_witness :
  existsb (@fatal steady) [Signal SIGTERM; Incoming (get_request "/health")] = false /\
  @fatal steady (Signal 10) = true /\
  fst (@serve_forever steady
         ([Signal SIGTERM; Incoming (get_request "/health")] ++ Signal 10 :: [])%list
         (@fresh steady)) = Raise (Killed 10).
Proof.
  split; [reflexivity|]. split; [reflexivity|].
  destruct (@an_unhandled_signal_ends_the_process steady
              [Signal SIGTERM; Incoming (get_request "/health")] [] 10 (@fresh steady)
              eq_refl eq_refl) as (Hk & _).
  exact Hk.
Defined.
